(** * httpx: path shifting and the request-context registry

    A shallow embedding of [httpx.go] (package [acln.ro/httpx]) and of the
    parts of the Go standard library it calls ([strings.IndexByte], string
    slicing, [context.WithValue], [Context.Value], [Request.Context],
    [Request.WithContext]), followed by the properties of the package.

    Go strings are byte sequences: they are modelled by [string], a list of
    8-bit [ascii] characters.  Go's [int] indices are modelled by [Z].
    Operations that can panic at run time return a [result]. *)

From Stdlib Require Import ZArith String Ascii Lia.
From stdpp Require Import base decidable option list gmap strings.

Local Open Scope string_scope.
Local Open Scope Z_scope.

(** ** Results of Go code: a value, or a run-time panic *)

Inductive panic : Type :=
  | SliceOutOfRange      (* slice bounds out of range *)
  | NilDereference       (* invalid memory address or nil pointer dereference *)
  | BadTypeAssertion     (* interface conversion: interface is not string *)
  | NilKey.              (* context.WithValue: nil key *)

Inductive result (A : Type) : Type :=
  | Ok (a : A)
  | Panicked (p : panic).
Arguments Ok {A} a.
Arguments Panicked {A} p.

Definition rbind {A B} (m : result A) (k : A -> result B) : result B :=
  match m with
  | Ok a => k a
  | Panicked p => Panicked p
  end.

Notation "'let?' x ':=' m 'in' k" := (rbind m (fun x => k))
  (at level 10, x pattern, m at level 100, k at level 200).

(** ** Go strings: length, slicing, [strings.IndexByte] *)

Module GoStr.

Definition len (s : string) : Z := Z.of_nat (String.length s).

Fixpoint drop (n : nat) (s : string) : string :=
  match n, s with
  | O, _ => s
  | S n', String _ s' => drop n' s'
  | S _, EmptyString => EmptyString
  end.

Fixpoint take (n : nat) (s : string) : string :=
  match n, s with
  | O, _ => EmptyString
  | S n', String a s' => String a (take n' s')
  | S _, EmptyString => EmptyString
  end.

(** [s[lo:hi]]: panics unless [0 <= lo <= hi <= len(s)]. *)
Definition slice (s : string) (lo hi : Z) : result string :=
  if (0 <=? lo) && (lo <=? hi) && (hi <=? len s)
  then Ok (take (Z.to_nat (hi - lo)) (drop (Z.to_nat lo) s))
  else Panicked SliceOutOfRange.

(** [s[lo:]] *)
Definition slice_from (s : string) (lo : Z) : result string :=
  slice s lo (len s).

(** [s[:hi]] *)
Definition slice_to (s : string) (hi : Z) : result string :=
  slice s 0 hi.

(** [strings.IndexByte(s, c)]: the index of the first instance of [c] in
    [s], or [-1] if [c] is not present in [s]. *)
Fixpoint IndexByte (s : string) (c : ascii) : Z :=
  match s with
  | EmptyString => -1
  | String a s' =>
      if Ascii.eqb a c then 0
      else let i := IndexByte s' c in
           if i =? -1 then -1 else i + 1
  end.

End GoStr.

(** ** [shift] (httpx.go, lines 41-55) *)

Definition shift (path : string) : result (string * string) :=
  if String.eqb path "" || String.eqb path "/" then
    Ok ("", path)
  else
    let? path := GoStr.slice_from path 1 in
    let idx := GoStr.IndexByte path "/"%char in
    if negb (idx =? -1) then
      let? seg := GoStr.slice_to path idx in
      let? rest := GoStr.slice_from path idx in
      Ok (seg, rest)
    else
      Ok (path, "").

(** The precondition of [Shift]: the path is empty or has a "/" prefix. *)
Definition valid_path (p : string) : Prop :=
  p = "" \/ exists t, p = String "/" t.

(** ** Package [context]: the immutable chain of key-value nodes *)

(** Dynamic values ([interface{}]): the nil interface, a [string], a value of
    the private type [httpx.key], or a value of some type of another
    package (its type name and a representation).  Two interface values are
    equal when their dynamic types and values are. *)
Inductive any : Type :=
  | AnyNil
  | AnyString (s : string)
  | AnyKey (k : Z)
  | AnyOther (type_name : string) (repr : Z).

#[global] Instance any_eq_dec : EqDecision any.
Proof. solve_decision. Defined.

Inductive Context : Type :=
  | emptyCtx                                       (* context.Background() *)
  | valueCtx (parent : Context) (key val : any)    (* context.WithValue *)
  | cancelCtx (parent : Context).                  (* WithCancel, WithDeadline, ... *)

(** [ctx.Value(key)]: the value of the innermost node for [key], nil when
    there is none; nodes that carry no value ask their parent. *)
Fixpoint Value (ctx : Context) (key : any) : any :=
  match ctx with
  | emptyCtx => AnyNil
  | valueCtx parent k v => if decide (k = key) then v else Value parent key
  | cancelCtx parent => Value parent key
  end.

(** [context.WithValue(parent, key, val)]: a new node that wraps [parent];
    it panics on a nil key. *)
Definition WithValue (parent : Context) (key val : any) : result Context :=
  if decide (key = AnyNil) then Panicked NilKey
  else Ok (valueCtx parent key val).

(** [val.(string)] *)
Definition assert_string (val : any) : result string :=
  match val with
  | AnyString s => Ok s
  | _ => Panicked BadTypeAssertion
  end.

(** Some node of the chain was made for [key]. *)
Fixpoint has_key (key : any) (ctx : Context) : bool :=
  match ctx with
  | emptyCtx => false
  | valueCtx parent k _ => bool_decide (k = key) || has_key key parent
  | cancelCtx parent => has_key key parent
  end.

(** ** Packages [net/url] and [net/http]: the objects on the heap *)

Definition addr := positive.

(** A pointer: [None] is nil. *)
Definition ptr := option addr.

Module url.
Record URL : Type := mkURL {
  Scheme : string;
  Host : string;
  Path : string;
  RawQuery : string;
  Fragment : string
}.
Definition set_Path (u : URL) (p : string) : URL :=
  {| Scheme := Scheme u; Host := Host u; Path := p;
     RawQuery := RawQuery u; Fragment := Fragment u |}.
End url.

Module http.
Record Request : Type := mkRequest {
  Method : string;
  URL : ptr;                 (* *url.URL *)
  Host : string;
  RemoteAddr : string;
  ctx : option Context       (* nil until WithContext sets it *)
}.
Definition set_ctx (r : Request) (c : Context) : Request :=
  {| Method := Method r; URL := URL r; Host := Host r;
     RemoteAddr := RemoteAddr r; ctx := Some c |}.
Definition set_URL (r : Request) (u : ptr) : Request :=
  {| Method := Method r; URL := u; Host := Host r;
     RemoteAddr := RemoteAddr r; ctx := ctx r |}.
End http.

Record Heap : Type := mkHeap {
  requests : gmap addr http.Request;
  urls : gmap addr url.URL
}.

(** ** Go code on the heap: a state monad whose runs may panic *)

Definition M (A : Type) : Type := Heap -> result (A * Heap).

Definition ret {A} (a : A) : M A := fun h => Ok (a, h).

Definition bind {A B} (m : M A) (k : A -> M B) : M B :=
  fun h => match m h with
           | Ok (a, h') => k a h'
           | Panicked p => Panicked p
           end.

Definition lift {A} (r : result A) : M A :=
  fun h => match r with
           | Ok a => Ok (a, h)
           | Panicked p => Panicked p
           end.

Notation "'let*' x ':=' m 'in' k" := (bind m (fun x => k))
  (at level 10, x pattern, m at level 100, k at level 200).

(** [*req] *)
Definition load_req (req : ptr) : M http.Request :=
  fun h => match req with
           | Some a => match requests h !! a with
                       | Some r => Ok (r, h)
                       | None => Panicked NilDereference
                       end
           | None => Panicked NilDereference
           end.

(** [*u] *)
Definition load_url (u : ptr) : M url.URL :=
  fun h => match u with
           | Some a => match urls h !! a with
                       | Some v => Ok (v, h)
                       | None => Panicked NilDereference
                       end
           | None => Panicked NilDereference
           end.

(** [u.Path = p] *)
Definition store_Path (u : ptr) (p : string) : M unit :=
  fun h => match u with
           | Some a => match urls h !! a with
                       | Some v =>
                           Ok (tt, {| requests := requests h;
                                      urls := <[a := url.set_Path v p]> (urls h) |})
                       | None => Panicked NilDereference
                       end
           | None => Panicked NilDereference
           end.

(** [new(Request)] initialised with [r]: an address not in use. *)
Definition new_req (r : http.Request) : M ptr :=
  fun h => let a := fresh (dom (requests h)) in
           Ok (Some a, {| requests := <[a := r]> (requests h); urls := urls h |}).

(** [new(url.URL)] initialised with [u]. *)
Definition new_url (u : url.URL) : M ptr :=
  fun h => let a := fresh (dom (urls h)) in
           Ok (Some a, {| requests := requests h; urls := <[a := u]> (urls h) |}).

(** [req.Context()]: the request's context, the background context when the
    field is nil. *)
Definition request_ctx (r : http.Request) : Context :=
  match http.ctx r with
  | Some c => c
  | None => emptyCtx
  end.

Definition Request_Context (req : ptr) : M Context :=
  let* r := load_req req in
  ret (request_ctx r).

(** The URL object a request points to, if it points to one. *)
Definition url_of (h : Heap) (r : http.Request) : option url.URL :=
  match http.URL r with
  | Some ua => urls h !! ua
  | None => None
  end.

(** Every object of [h] is in [h'], unchanged. *)
Definition heap_extends (h h' : Heap) : Prop :=
  requests h ⊆ requests h' /\ urls h ⊆ urls h'.

(** [req] points to a request of the heap that has a URL object. *)
Definition serving (h : Heap) (req : ptr) : Prop :=
  exists a r, req = Some a /\ requests h !! a = Some r /\ is_Some (url_of h r).

(** [cloneURL(u)] of net/http: nil for nil, else a copy in a new object. *)
Definition cloneURL (u : ptr) : M ptr :=
  match u with
  | None => ret None
  | Some _ => let* v := load_url u in new_url v
  end.

(** A request as the tests of the package make it: path "/abc/xyz", no
    context yet; alone on the heap with its URL object. *)
Definition test_url : url.URL :=
  {| url.Scheme := "http"; url.Host := "example.com"; url.Path := "/abc/xyz";
     url.RawQuery := ""; url.Fragment := "" |}.

Definition test_request : http.Request :=
  {| http.Method := "GET"; http.URL := Some 1%positive;
     http.Host := "example.com"; http.RemoteAddr := "192.0.2.1:4711";
     http.ctx := None |}.

Definition test_heap : Heap :=
  {| requests := {[ 1%positive := test_request ]};
     urls := {[ 1%positive := test_url ]} |}.

(** [httpsnoop.Metrics], as far as the package reads it. *)
Module httpsnoop.
Record Metrics : Type := mkMetrics {
  Code : Z;            (* int *)
  Duration : Z;        (* time.Duration *)
  Written : Z          (* int64 *)
}.
End httpsnoop.

(** [Summary] (the package's second listing, lines 239-250). *)
Record Summary : Type := mkSummary {
  Status : Z;          (* int *)
  Duration : Z;        (* time.Duration *)
  Written : Z          (* int64 *)
}.

(** A request made without a URL, as a zero [http.Request] is. *)
Definition bare_request : http.Request :=
  {| http.Method := "GET"; http.URL := None; http.Host := "";
     http.RemoteAddr := ""; http.ctx := None |}.

Definition bare_heap : Heap :=
  {| requests := {[ 1%positive := bare_request ]}; urls := ∅ |}.

(** A logger that is the pairs it was given, the later ones first, and a
    user agent, to run [RequestLogger] with. *)
Definition pairs_WithKV (base kv : gmap string any) : M (gmap string any) :=
  ret (kv ∪ base).

Definition test_UserAgent (r : http.Request) : string := "Go-http-client/1.1".

Section Httpx.

(** [Request.WithContext] is a shallow copy of the request with its context
    changed.  Go releases 1.9 to 1.19 also give the copy a clone of the URL
    object; the others make it share the URL object of the original.  The
    development holds for both. *)
Variable with_context_clones_url : bool.

(** [req.WithContext(ctx)], for a non-nil [ctx]. *)
Definition Request_WithContext (req : ptr) (c : Context) : M ptr :=
  let* r := load_req req in
  let r2 := http.set_ctx r c in
  if with_context_clones_url then
    let* u2 := cloneURL (http.URL r) in
    new_req (http.set_URL r2 u2)
  else
    new_req r2.

(** ** Package [httpx] *)

(** [type key int] with its two constants. *)
Definition pathKey : any := AnyKey 0.
Definition requestIDKey : any := AnyKey 1.

(** [Shift] (lines 35-39). *)
Definition Shift (req : ptr) : M string :=
  let* r := load_req req in
  let* u := load_url (http.URL r) in
  let* (seg, rest) := lift (shift (url.Path u)) in
  let* _ := store_Path (http.URL r) rest in
  ret seg.

(** [WithPath] (lines 68-75). *)
Definition WithPath (req : ptr) : M ptr :=
  let* ctx := Request_Context req in
  if decide (Value ctx pathKey <> AnyNil) then
    ret req
  else
    let* r := load_req req in
    let* u := load_url (http.URL r) in
    let* vctx := lift (WithValue ctx pathKey (AnyString (url.Path u))) in
    Request_WithContext req vctx.

(** [Path] (lines 79-85). *)
Definition Path (req : ptr) : M string :=
  let* ctx := Request_Context req in
  let val := Value ctx pathKey in
  if decide (val = AnyNil) then
    ret ""
  else
    lift (assert_string val).

(** [WithRequestID] (the package's second listing, lines 190-197). *)
Definition WithRequestID (req : ptr) (id : string) : M ptr :=
  let* ctx := Request_Context req in
  let val := Value ctx requestIDKey in
  if decide (val <> AnyNil) then
    ret req
  else
    let* vctx := lift (WithValue ctx requestIDKey (AnyString id)) in
    Request_WithContext req vctx.

(** [RequestID] (the package's second listing, lines 200-206). *)
Definition RequestID (req : ptr) : M string :=
  let* ctx := Request_Context req in
  let val := Value ctx requestIDKey in
  if decide (val = AnyNil) then
    ret ""
  else
    lift (assert_string val).

(** A run of [Shift] calls, one for each request of the list in turn; the
    segments in order. *)
Fixpoint Shift_seq (reqs : list ptr) : M (list string) :=
  match reqs with
  | [] => ret []
  | req :: reqs' =>
      let* seg := Shift req in
      let* segs := Shift_seq reqs' in
      ret (seg :: segs)
  end.

(** [TestContext] of the package on the request at address 1: [Path]
    before any [WithPath]; [WithPath]; one [Shift]; [WithPath] again; the
    live path; [Path]. *)
Definition TestContext : M (string * string * ptr * ptr * string * string) :=
  let* p0 := Path (Some 1%positive) in
  let* req := WithPath (Some 1%positive) in
  let* seg := Shift req in
  let* new := WithPath req in
  let* r := load_req req in
  let* u := load_url (http.URL r) in
  let* p := Path req in
  ret (p0, seg, req, new, url.Path u, p).

(** [req1] is a request object of [h1] that was not in [h]: a copy of [r]
    whose context is a new node for [key] and [val] around the context of
    [r], whose URL reads as the URL of [r], and whose other fields are
    those of [r]. *)
Definition new_request_with (h h1 : Heap) (r : http.Request) (req1 : ptr)
    (key val : any) : Prop :=
  exists (a1 : addr) (r1 : http.Request),
    req1 = Some a1 /\
    requests h !! a1 = None /\
    requests h1 !! a1 = Some r1 /\
    http.ctx r1 = Some (valueCtx (request_ctx r) key val) /\
    http.Method r1 = http.Method r /\
    http.Host r1 = http.Host r /\
    http.RemoteAddr r1 = http.RemoteAddr r /\
    url_of h1 r1 = url_of h r.

(** ** The values under the package's keys *)

(** Every node of the chain made for a key of type [httpx.key] holds a
    string.  The type is private to the package, so only [WithPath] and
    [WithRequestID] make such nodes. *)
Fixpoint ctx_typed (c : Context) : bool :=
  match c with
  | emptyCtx => true
  | valueCtx parent k v =>
      match k, v with
      | AnyKey _, AnyString _ => true
      | AnyKey _, _ => false
      | _, _ => true
      end && ctx_typed parent
  | cancelCtx parent => ctx_typed parent
  end.

Definition heap_typed (h : Heap) : Prop :=
  forall (a : addr) (r : http.Request),
    requests h !! a = Some r -> ctx_typed (request_ctx r) = true.

(** ** [RequestLogger], [ServeInstrumented], [Summary] (the package's second
    listing, lines 211-261) *)

(** Package [acln.ro/log] is not part of the sources: a logger is a value
    of some type, and [base.WithKV(kv)] is some computation of a logger.
    [log.KV] is [map[string]interface{}]. *)
Variable Logger : Type.
Variable Logger_WithKV : Logger -> gmap string any -> M Logger.

(** [req.UserAgent()] reads the request's header, which the request record
    here does not carry: it is some string for each request. *)
Variable Request_UserAgent : http.Request -> string.

(** [RequestLogger] (lines 211-224). *)
Definition RequestLogger (base : Logger) (req : ptr) : M Logger :=
  let* r := load_req req in
  let* path := Path req in
  let kv : gmap string any :=
    <["method" := AnyString (http.Method r)]>
      (<["path" := AnyString path]>
         (<["remote_addr" := AnyString (http.RemoteAddr r)]> ∅)) in
  let ua := Request_UserAgent r in
  let kv := if decide (ua <> "") then <["user_agent" := AnyString ua]> kv
            else kv in
  let* id := RequestID req in
  let kv := if decide (id <> "") then <["request_id" := AnyString id]> kv
            else kv in
  Logger_WithKV base kv.

(** Package [github.com/felixge/httpsnoop] is not part of the sources:
    [httpsnoop.CaptureMetrics(h, w, req)] runs the handler, which may do
    anything to the heap and may panic, and returns its metrics. *)
Variable Handler : Type.
Variable ResponseWriter : Type.
Variable CaptureMetrics :
  Handler -> ResponseWriter -> ptr -> M httpsnoop.Metrics.

(** [ServeInstrumented] (lines 229-236). *)
Definition ServeInstrumented (hd : Handler) (w : ResponseWriter) (req : ptr)
    : M Summary :=
  let* m := CaptureMetrics hd w req in
  ret {| Status := httpsnoop.Code m;
         Duration := httpsnoop.Duration m;
         Written := httpsnoop.Written m |}.

(** [Summary.KV] (lines 255-261): the values are an [int], a
    [time.Duration] and an [int64]. *)
Definition Summary_KV (s : Summary) : gmap string any :=
  <["status" := AnyOther "int" (Status s)]>
    (<["duration" := AnyOther "time.Duration" (Duration s)]>
       (<["written" := AnyOther "int64" (Written s)]> ∅)).

(** * Properties *)

(** ** Strings and slices *)

Lemma len_nonneg (s : string) : 0 <= GoStr.len s.
Proof. unfold GoStr.len. lia. Qed.

Lemma len_cons (a : ascii) (s : string) :
  GoStr.len (String a s) = GoStr.len s + 1.
Proof. unfold GoStr.len. cbn [String.length]. lia. Qed.

Lemma take_drop (n : nat) (s : string) :
  GoStr.take n s +:+ GoStr.drop n s = s.
Proof.
  revert s. induction n as [|n IH]; intros [|a s]; try reflexivity.
  change (String a (GoStr.take n s +:+ GoStr.drop n s) = String a s).
  f_equal. apply IH.
Qed.

Lemma take_all (n : nat) (s : string) :
  (String.length s <= n)%nat -> GoStr.take n s = s.
Proof.
  revert s. induction n as [|n IH]; intros [|a s] Hn; cbn in *;
    try reflexivity; try lia.
  rewrite IH by lia. reflexivity.
Qed.

Lemma length_drop (n : nat) (s : string) :
  String.length (GoStr.drop n s) = (String.length s - n)%nat.
Proof.
  revert s. induction n as [|n IH]; intros [|a s]; cbn; try lia.
  apply IH.
Qed.

Lemma take_empty_inv (n : nat) (s : string) :
  (n < String.length s)%nat -> GoStr.take n s = "" -> n = O.
Proof. destruct n, s; cbn; intros; try lia; discriminate. Qed.

Lemma slice_from_ok (s : string) (lo : Z) :
  0 <= lo <= GoStr.len s ->
  GoStr.slice_from s lo = Ok (GoStr.drop (Z.to_nat lo) s).
Proof.
  intros Hlo. unfold GoStr.slice_from, GoStr.slice.
  replace ((0 <=? lo) && (lo <=? GoStr.len s) && (GoStr.len s <=? GoStr.len s))
    with true by (symmetry; rewrite !andb_true_iff, !Z.leb_le; lia).
  f_equal. apply take_all. rewrite length_drop. unfold GoStr.len. lia.
Qed.

Lemma slice_to_ok (s : string) (hi : Z) :
  0 <= hi <= GoStr.len s ->
  GoStr.slice_to s hi = Ok (GoStr.take (Z.to_nat hi) s).
Proof.
  intros Hhi. unfold GoStr.slice_to, GoStr.slice.
  replace ((0 <=? 0) && (0 <=? hi) && (hi <=? GoStr.len s))
    with true by (symmetry; rewrite !andb_true_iff, !Z.leb_le; lia).
  rewrite Z.sub_0_r. reflexivity.
Qed.

Lemma slice_from_1_cons (a : ascii) (s : string) :
  GoStr.slice_from (String a s) 1 = Ok s.
Proof.
  rewrite slice_from_ok; [reflexivity|].
  rewrite len_cons. pose proof (len_nonneg s). lia.
Qed.

(** [strings.IndexByte] answers [-1] or an index of the string. *)
Lemma IndexByte_range (s : string) (c : ascii) :
  GoStr.IndexByte s c = -1 \/ 0 <= GoStr.IndexByte s c < GoStr.len s.
Proof.
  induction s as [|a s IH]; cbn [GoStr.IndexByte]; [now left|].
  rewrite len_cons. pose proof (len_nonneg s).
  destruct (Ascii.eqb a c); [right; lia|].
  destruct (Z.eqb_spec (GoStr.IndexByte s c) (-1)); [now left|right; lia].
Qed.

Lemma IndexByte_0_inv (s : string) (c : ascii) :
  GoStr.IndexByte s c = 0 -> exists s', s = String c s'.
Proof.
  destruct s as [|a s]; cbn [GoStr.IndexByte]; [discriminate|].
  destruct (Ascii.eqb_spec a c) as [->|_]; [eauto|].
  pose proof (IndexByte_range s c).
  destruct (Z.eqb_spec (GoStr.IndexByte s c) (-1)); intros; lia.
Qed.

(** ** [shift] *)

(** [shift] on a path of at least one byte other than "/" itself: the
    first byte is dropped and what remains is cut at its first "/". *)
Lemma shift_cons (a : ascii) (t : string) :
  String a t <> "/" ->
  shift (String a t) =
    (let idx := GoStr.IndexByte t "/"%char in
     if idx =? -1 then Ok (t, "")
     else Ok (GoStr.take (Z.to_nat idx) t, GoStr.drop (Z.to_nat idx) t)).
Proof.
  intros Hne. unfold shift.
  replace (String.eqb (String a t) "" || String.eqb (String a t) "/")
    with false.
  2:{ symmetry. apply orb_false_iff. split; [reflexivity|].
      apply String.eqb_neq, Hne. }
  rewrite slice_from_1_cons. cbn [rbind].
  pose proof (IndexByte_range t "/"%char) as Hr.
  destruct (Z.eqb_spec (GoStr.IndexByte t "/"%char) (-1)) as [He|He];
    cbn [negb]; [reflexivity|].
  rewrite slice_to_ok, slice_from_ok by lia. reflexivity.
Qed.

(** C1: [shift] agrees with the table of edge cases, row by row. *)
Theorem shift_edge_cases :
  shift "" = Ok ("", "") /\
  shift "/" = Ok ("", "/") /\
  shift "/xyz" = Ok ("xyz", "") /\
  shift "/xyz/" = Ok ("xyz", "/") /\
  shift "/abc/xyz" = Ok ("abc", "/xyz") /\
  shift "/abc/xyz/" = Ok ("abc", "/xyz/") /\
  shift "/abc/xyz/t" = Ok ("abc", "/xyz/t").
Proof. repeat split; vm_compute; reflexivity. Qed.

Example shift_chain :
  shift "/abc/xyz/t" = Ok ("abc", "/xyz/t") /\
  shift "/xyz/t" = Ok ("xyz", "/t") /\
  shift "/t" = Ok ("t", "") /\
  shift "" = Ok ("", "").
Proof. repeat split; reflexivity. Qed.

(** Every slice [shift] takes is within bounds. *)
Lemma shift_returns (path : string) :
  exists seg rest : string, shift path = Ok (seg, rest).
Proof.
  destruct path as [|a t]; [now exists "", ""|].
  destruct (string_dec (String a t) "/") as [->|Hne]; [now exists "", "/"|].
  rewrite shift_cons by assumption. cbv zeta.
  destruct (GoStr.IndexByte t "/"%char =? -1); eauto.
Qed.

(** C7: [shift] is total: on every string, valid path or not, it takes no
    slice out of bounds, does not panic, and returns a pair of strings. *)
Theorem shift_total (path : string) :
  (exists seg rest : string, shift path = Ok (seg, rest)) /\
  (forall p : panic, shift path <> Panicked p).
Proof.
  destruct (shift_returns path) as (seg & rest & E).
  split; [eauto|]. intros p. rewrite E. discriminate.
Qed.

Lemma append_empty_r (s : string) : s +:+ "" = s.
Proof.
  induction s as [|a s IH]; [reflexivity|].
  change (String a (s +:+ "") = String a s). now rewrite IH.
Qed.

(** C2 (as amended): on a valid path [shift] returns a segment and a rest
    such that a non-empty segment, put back behind a "/", restores the path;
    with an empty segment the path is returned unchanged provided it does
    not begin with "//". *)
Theorem shift_roundtrip (p : string) :
  valid_path p ->
  exists seg rest : string,
    shift p = Ok (seg, rest) /\
    (seg <> "" -> "/" +:+ seg +:+ rest = p) /\
    (seg = "" -> ~ (exists t, p = "//" +:+ t) -> rest = p).
Proof.
  intros [->|[t ->]].
  { exists "", "". split; [reflexivity|]. split; [congruence|reflexivity]. }
  destruct (string_dec (String "/" t) "/") as [E|Hne].
  { rewrite E. exists "", "/". split; [reflexivity|].
    split; [congruence|reflexivity]. }
  rewrite shift_cons by assumption. cbv zeta.
  pose proof (IndexByte_range t "/"%char) as Hr.
  destruct (Z.eqb_spec (GoStr.IndexByte t "/"%char) (-1)) as [He|He].
  - exists t, "". split; [reflexivity|]. split.
    + intros _. rewrite append_empty_r. reflexivity.
    + intros ->. congruence.
  - destruct Hr as [Hr|Hr]; [contradiction|].
    eexists _, _. split; [reflexivity|]. split.
    + intros _. rewrite take_drop. reflexivity.
    + intros Hseg Hnd. exfalso. apply Hnd.
      apply take_empty_inv in Hseg; [|unfold GoStr.len in Hr; lia].
      destruct (IndexByte_0_inv t "/"%char) as [t' ->]; [lia|].
      now exists t'.
Qed.

(** The path with the first "/" put back is the input whenever [shift] has
    consumed something, whether or not the segment is empty. *)
Lemma shift_reassemble (p seg rest : string) :
  valid_path p -> p <> "" -> p <> "/" ->
  shift p = Ok (seg, rest) -> "/" +:+ seg +:+ rest = p.
Proof.
  intros [->|[t ->]] Hne Hne'; [congruence|].
  rewrite shift_cons by assumption. cbv zeta.
  destruct (GoStr.IndexByte t "/"%char =? -1); intros [= <- <-].
  - now rewrite append_empty_r.
  - now rewrite take_drop.
Qed.

(** C10: on a path that begins with "//", [shift] returns the empty
    segment and the path without its first byte, which is another path:
    an empty segment does not tell that nothing was consumed. *)
Theorem shift_double_slash (t : string) :
  let p := "//" +:+ t in
  valid_path p /\
  shift p = Ok ("", GoStr.drop 1 p) /\
  GoStr.drop 1 p = "/" +:+ t /\
  GoStr.drop 1 p <> p.
Proof.
  cbv zeta. change ("//" +:+ t) with (String "/" (String "/" t)).
  change ("/" +:+ t) with (String "/" t).
  split; [right; eauto|].
  split; [|split; [reflexivity|]].
  - rewrite shift_cons by discriminate. reflexivity.
  - cbn [GoStr.drop]. intros E. apply (f_equal String.length) in E.
    cbn [String.length] in E. lia.
Qed.

(** ** Runs on the heap *)

Lemma bind_ok {A B} (m : M A) (k : A -> M B) (h h' : Heap) (a : A) :
  m h = Ok (a, h') -> bind m k h = k a h'.
Proof. unfold bind. now intros ->. Qed.

Lemma load_req_ok (h : Heap) (a : addr) (r : http.Request) :
  requests h !! a = Some r -> load_req (Some a) h = Ok (r, h).
Proof. unfold load_req. now intros ->. Qed.

Lemma load_url_ok (h : Heap) (r : http.Request) (u : url.URL) :
  url_of h r = Some u -> load_url (http.URL r) h = Ok (u, h).
Proof.
  unfold url_of, load_url. destruct (http.URL r); [|discriminate].
  now intros ->.
Qed.

Lemma Request_Context_ok (h : Heap) (a : addr) (r : http.Request) :
  requests h !! a = Some r ->
  Request_Context (Some a) h = Ok (request_ctx r, h).
Proof.
  intros Hr. unfold Request_Context.
  now rewrite (bind_ok _ _ _ _ _ (load_req_ok _ _ _ Hr)).
Qed.

Lemma fresh_req (h : Heap) : requests h !! fresh (dom (requests h)) = None.
Proof. apply not_elem_of_dom, is_fresh. Qed.

Lemma fresh_url (h : Heap) : urls h !! fresh (dom (urls h)) = None.
Proof. apply not_elem_of_dom, is_fresh. Qed.

(** The context chain *)

Lemma has_key_false_Value (key : any) (c : Context) :
  has_key key c = false -> Value c key = AnyNil.
Proof.
  induction c as [|parent IH k v|parent IH]; cbn; [reflexivity| |exact IH].
  intros [Hk Hp]%orb_false_iff. apply bool_decide_eq_false in Hk.
  rewrite decide_False by assumption. now apply IH.
Qed.

Lemma Value_valueCtx_eq (c : Context) (key val : any) :
  Value (valueCtx c key val) key = val.
Proof. cbn. now rewrite decide_True. Qed.

(** [Request.WithContext]: a new request object that differs from the
    original in its context and, with a cloned URL, in the address of its
    URL object; nothing that was on the heap changes. *)
Lemma Request_WithContext_spec (h : Heap) (a : addr) (r : http.Request)
    (u : url.URL) (c : Context) :
  requests h !! a = Some r ->
  url_of h r = Some u ->
  exists (a1 : addr) (r1 : http.Request) (h1 : Heap),
    Request_WithContext (Some a) c h = Ok (Some a1, h1) /\
    requests h !! a1 = None /\
    requests h1 = <[a1 := r1]> (requests h) /\
    urls h ⊆ urls h1 /\
    http.ctx r1 = Some c /\
    http.Method r1 = http.Method r /\
    http.Host r1 = http.Host r /\
    http.RemoteAddr r1 = http.RemoteAddr r /\
    url_of h1 r1 = Some u.
Proof.
  intros Hr Hu. unfold Request_WithContext.
  rewrite (bind_ok _ _ _ _ _ (load_req_ok _ _ _ Hr)).
  destruct with_context_clones_url.
  - pose proof Hu as Hu'. unfold url_of in Hu'.
    destruct (http.URL r) as [ua|] eqn:HU; [|discriminate].
    unfold cloneURL.
    assert (Hl : load_url (Some ua) h = Ok (u, h)).
    { rewrite <- HU. now apply load_url_ok. }
    rewrite (bind_ok _ _ _ _ _ (bind_ok _ _ _ _ _ Hl)).
    unfold new_url, new_req. cbn [requests urls].
    eexists _, _, _. split; [reflexivity|]. cbn [requests urls].
    split; [apply fresh_req|]. split; [reflexivity|].
    split; [apply insert_subseteq, fresh_url|].
    repeat (split; [reflexivity|]).
    unfold url_of. cbn. apply lookup_insert_eq.
  - unfold new_req. eexists _, _, _. split; [reflexivity|]. cbn [requests urls].
    split; [apply fresh_req|]. split; [reflexivity|].
    split; [reflexivity|].
    repeat (split; [reflexivity|]). exact Hu.
Qed.

(** [Shift] on a request that has a URL: the requests are as they were,
    and of the URL objects only the one of the request changes, in its
    [Path] field. *)
Lemma Shift_spec (h : Heap) (a ua : addr) (r : http.Request) (u : url.URL) :
  requests h !! a = Some r ->
  http.URL r = Some ua ->
  urls h !! ua = Some u ->
  exists seg rest : string,
    shift (url.Path u) = Ok (seg, rest) /\
    Shift (Some a) h =
      Ok (seg, {| requests := requests h;
                  urls := <[ua := url.set_Path u rest]> (urls h) |}).
Proof.
  intros Hr HU Hu.
  destruct (shift_returns (url.Path u)) as (seg & rest & Hs).
  exists seg, rest. split; [exact Hs|].
  unfold Shift.
  rewrite (bind_ok _ _ _ _ _ (load_req_ok _ _ _ Hr)).
  assert (Hl : load_url (http.URL r) h = Ok (u, h)).
  { apply load_url_ok. unfold url_of. now rewrite HU. }
  rewrite (bind_ok _ _ _ _ _ Hl).
  unfold bind at 1. unfold lift. rewrite Hs.
  unfold bind, store_Path, ret. rewrite HU, Hu. reflexivity.
Qed.

Lemma Path_stored (h : Heap) (a : addr) (r : http.Request) (p : string) :
  requests h !! a = Some r ->
  Value (request_ctx r) pathKey = AnyString p ->
  Path (Some a) h = Ok (p, h).
Proof.
  intros Hr Hv. unfold Path.
  rewrite (bind_ok _ _ _ _ _ (Request_Context_ok _ _ _ Hr)).
  rewrite Hv. reflexivity.
Qed.

Lemma Path_absent (h : Heap) (a : addr) (r : http.Request) :
  requests h !! a = Some r ->
  Value (request_ctx r) pathKey = AnyNil ->
  Path (Some a) h = Ok ("", h).
Proof.
  intros Hr Hv. unfold Path.
  rewrite (bind_ok _ _ _ _ _ (Request_Context_ok _ _ _ Hr)).
  rewrite Hv. reflexivity.
Qed.

Lemma RequestID_stored (h : Heap) (a : addr) (r : http.Request) (id : string) :
  requests h !! a = Some r ->
  Value (request_ctx r) requestIDKey = AnyString id ->
  RequestID (Some a) h = Ok (id, h).
Proof.
  intros Hr Hv. unfold RequestID.
  rewrite (bind_ok _ _ _ _ _ (Request_Context_ok _ _ _ Hr)).
  rewrite Hv. reflexivity.
Qed.

Lemma RequestID_absent (h : Heap) (a : addr) (r : http.Request) :
  requests h !! a = Some r ->
  Value (request_ctx r) requestIDKey = AnyNil ->
  RequestID (Some a) h = Ok ("", h).
Proof.
  intros Hr Hv. unfold RequestID.
  rewrite (bind_ok _ _ _ _ _ (Request_Context_ok _ _ _ Hr)).
  rewrite Hv. reflexivity.
Qed.

(** ** The "with" operations *)

Lemma with_context_new (h : Heap) (a : addr) (r : http.Request) (u : url.URL)
    (key val : any) :
  requests h !! a = Some r ->
  url_of h r = Some u ->
  exists (req1 : ptr) (h1 : Heap),
    Request_WithContext (Some a) (valueCtx (request_ctx r) key val) h
      = Ok (req1, h1) /\
    heap_extends h h1 /\
    new_request_with h h1 r req1 key val.
Proof.
  intros Hr Hu.
  destruct (Request_WithContext_spec h a r u
              (valueCtx (request_ctx r) key val) Hr Hu)
    as (a1 & r1 & h1 & Hrun & Hfresh & Hreqs & Hurls & Hc & Hm & Hh & Ha & Hu1).
  exists (Some a1), h1. split; [exact Hrun|]. split.
  - split; [|exact Hurls]. rewrite Hreqs. now apply insert_subseteq.
  - exists a1, r1. rewrite Hreqs, lookup_insert_eq, Hu, Hu1. auto 10.
Qed.

Lemma WithPath_present (h : Heap) (a : addr) (r : http.Request) :
  requests h !! a = Some r ->
  Value (request_ctx r) pathKey <> AnyNil ->
  WithPath (Some a) h = Ok (Some a, h).
Proof.
  intros Hr Hv. unfold WithPath.
  rewrite (bind_ok _ _ _ _ _ (Request_Context_ok _ _ _ Hr)).
  now rewrite decide_True.
Qed.

Lemma WithPath_absent (h : Heap) (a : addr) (r : http.Request) (u : url.URL) :
  requests h !! a = Some r ->
  url_of h r = Some u ->
  Value (request_ctx r) pathKey = AnyNil ->
  exists (req1 : ptr) (h1 : Heap),
    WithPath (Some a) h = Ok (req1, h1) /\
    heap_extends h h1 /\
    new_request_with h h1 r req1 pathKey (AnyString (url.Path u)).
Proof.
  intros Hr Hu Hv.
  destruct (with_context_new h a r u pathKey (AnyString (url.Path u)) Hr Hu)
    as (req1 & h1 & Hrun & Hext & Hnew).
  exists req1, h1. split; [|now split].
  unfold WithPath.
  rewrite (bind_ok _ _ _ _ _ (Request_Context_ok _ _ _ Hr)).
  rewrite decide_False by (now rewrite Hv; intros []).
  rewrite (bind_ok _ _ _ _ _ (load_req_ok _ _ _ Hr)).
  rewrite (bind_ok _ _ _ _ _ (load_url_ok _ _ _ Hu)).
  exact Hrun.
Qed.

Lemma WithRequestID_present (h : Heap) (a : addr) (r : http.Request)
    (id : string) :
  requests h !! a = Some r ->
  Value (request_ctx r) requestIDKey <> AnyNil ->
  WithRequestID (Some a) id h = Ok (Some a, h).
Proof.
  intros Hr Hv. unfold WithRequestID.
  rewrite (bind_ok _ _ _ _ _ (Request_Context_ok _ _ _ Hr)).
  now rewrite decide_True.
Qed.

Lemma WithRequestID_absent (h : Heap) (a : addr) (r : http.Request)
    (u : url.URL) (id : string) :
  requests h !! a = Some r ->
  url_of h r = Some u ->
  Value (request_ctx r) requestIDKey = AnyNil ->
  exists (req1 : ptr) (h1 : Heap),
    WithRequestID (Some a) id h = Ok (req1, h1) /\
    heap_extends h h1 /\
    new_request_with h h1 r req1 requestIDKey (AnyString id).
Proof.
  intros Hr Hu Hv.
  destruct (with_context_new h a r u requestIDKey (AnyString id) Hr Hu)
    as (req1 & h1 & Hrun & Hext & Hnew).
  exists req1, h1. split; [|now split].
  unfold WithRequestID.
  rewrite (bind_ok _ _ _ _ _ (Request_Context_ok _ _ _ Hr)).
  rewrite decide_False by (now rewrite Hv; intros []).
  exact Hrun.
Qed.

(** The context of a request made by a "with" operation answers the new
    value for the key. *)
Lemma new_request_Value (r r1 : http.Request) (key val : any) :
  http.ctx r1 = Some (valueCtx (request_ctx r) key val) ->
  Value (request_ctx r1) key = val.
Proof. intros Hc. unfold request_ctx. rewrite Hc. apply Value_valueCtx_eq. Qed.

(** C4: a "with" operation on a request whose context already has the key
    returns the very request it was given and leaves the heap as it is; so
    [WithPath] after [WithPath], and [WithRequestID] after [WithRequestID]
    with any two identifiers, return the request of the first call. *)
Theorem with_twice_same_request (h : Heap) (a : addr) (r : http.Request)
    (u : url.URL) :
  requests h !! a = Some r ->
  url_of h r = Some u ->
  (Value (request_ctx r) pathKey <> AnyNil ->
   WithPath (Some a) h = Ok (Some a, h)) /\
  (Value (request_ctx r) requestIDKey <> AnyNil ->
   forall id, WithRequestID (Some a) id h = Ok (Some a, h)) /\
  (exists (req1 : ptr) (h1 : Heap),
     WithPath (Some a) h = Ok (req1, h1) /\
     WithPath req1 h1 = Ok (req1, h1)) /\
  (forall id1 id2 : string,
   exists (req1 : ptr) (h1 : Heap),
     WithRequestID (Some a) id1 h = Ok (req1, h1) /\
     WithRequestID req1 id2 h1 = Ok (req1, h1)).
Proof.
  intros Hr Hu.
  split; [now apply (WithPath_present h a r)|].
  split; [intros Hv id; now apply (WithRequestID_present h a r)|].
  split.
  - destruct (decide (Value (request_ctx r) pathKey = AnyNil)) as [Hv|Hv].
    + destruct (WithPath_absent h a r u Hr Hu Hv)
        as (req1 & h1 & Hrun & _ & a1 & r1 & -> & _ & Hr1 & Hc & _).
      exists (Some a1), h1. split; [exact Hrun|].
      apply (WithPath_present h1 a1 r1 Hr1).
      now rewrite (new_request_Value r r1 _ _ Hc).
    + exists (Some a), h.
      split; now apply (WithPath_present h a r).
  - intros id1 id2.
    destruct (decide (Value (request_ctx r) requestIDKey = AnyNil)) as [Hv|Hv].
    + destruct (WithRequestID_absent h a r u id1 Hr Hu Hv)
        as (req1 & h1 & Hrun & _ & a1 & r1 & -> & _ & Hr1 & Hc & _).
      exists (Some a1), h1. split; [exact Hrun|].
      apply (WithRequestID_present h1 a1 r1 id2 Hr1).
      now rewrite (new_request_Value r r1 _ _ Hc).
    + exists (Some a), h.
      split; now apply (WithRequestID_present h a r).
Qed.

(** C5: on a request without an identifier, [WithRequestID] with [id1] and
    then [WithRequestID] with [id2] on its result leave a request whose
    [RequestID] is [id1]. *)
Theorem request_id_first_write_wins (h : Heap) (a : addr) (r : http.Request)
    (u : url.URL) (id1 id2 : string) :
  requests h !! a = Some r ->
  url_of h r = Some u ->
  Value (request_ctx r) requestIDKey = AnyNil ->
  exists (req1 req2 : ptr) (h1 h2 : Heap),
    WithRequestID (Some a) id1 h = Ok (req1, h1) /\
    WithRequestID req1 id2 h1 = Ok (req2, h2) /\
    RequestID req2 h2 = Ok (id1, h2).
Proof.
  intros Hr Hu Hv.
  destruct (WithRequestID_absent h a r u id1 Hr Hu Hv)
    as (req1 & h1 & Hrun & _ & a1 & r1 & -> & _ & Hr1 & Hc & _).
  pose proof (new_request_Value r r1 _ _ Hc) as Hv1.
  exists (Some a1), (Some a1), h1, h1. split; [exact Hrun|]. split.
  - apply (WithRequestID_present h1 a1 r1 id2 Hr1). now rewrite Hv1.
  - now apply (RequestID_stored h1 a1 r1).
Qed.

(** C6: on a request whose context has no node for the key, [Path] and
    [RequestID] return the empty string; they do not panic and leave the
    heap as it is. *)
Theorem getters_default_to_empty (h : Heap) (a : addr) (r : http.Request) :
  requests h !! a = Some r ->
  (has_key pathKey (request_ctx r) = false ->
   Path (Some a) h = Ok ("", h)) /\
  (has_key requestIDKey (request_ctx r) = false ->
   RequestID (Some a) h = Ok ("", h)).
Proof.
  intros Hr. split; intros Hk.
  - apply (Path_absent h a r Hr). now apply has_key_false_Value.
  - apply (RequestID_absent h a r Hr). now apply has_key_false_Value.
Qed.

(** C9: [WithRequestID] with the empty identifier, on a request without an
    identifier, makes a new request whose context has a value for the key:
    every later [WithRequestID] returns that request as it is; yet
    [RequestID] returns the empty string on it, as it does on the request
    that was never given an identifier. *)
Theorem empty_request_id_is_set (h : Heap) (a : addr) (r : http.Request)
    (u : url.URL) :
  requests h !! a = Some r ->
  url_of h r = Some u ->
  Value (request_ctx r) requestIDKey = AnyNil ->
  exists (a1 : addr) (r1 : http.Request) (h1 : Heap),
    WithRequestID (Some a) "" h = Ok (Some a1, h1) /\
    requests h1 !! a1 = Some r1 /\
    Value (request_ctx r1) requestIDKey = AnyString "" /\
    Value (request_ctx r1) requestIDKey <> AnyNil /\
    (forall id, WithRequestID (Some a1) id h1 = Ok (Some a1, h1)) /\
    RequestID (Some a1) h1 = Ok ("", h1) /\
    RequestID (Some a) h = Ok ("", h).
Proof.
  intros Hr Hu Hv.
  destruct (WithRequestID_absent h a r u "" Hr Hu Hv)
    as (req1 & h1 & Hrun & _ & a1 & r1 & -> & _ & Hr1 & Hc & _).
  pose proof (new_request_Value r r1 _ _ Hc) as Hv1.
  exists a1, r1, h1. split; [exact Hrun|]. split; [exact Hr1|].
  split; [exact Hv1|]. split; [now rewrite Hv1|]. split.
  - intros id. apply (WithRequestID_present h1 a1 r1 id Hr1). now rewrite Hv1.
  - split; [now apply (RequestID_stored h1 a1 r1)|].
    now apply (RequestID_absent h a r).
Qed.

(** ** Runs of [Shift] *)

Lemma Shift_serving (h : Heap) (req : ptr) :
  serving h req ->
  exists (seg : string) (h' : Heap),
    Shift req h = Ok (seg, h') /\
    requests h' = requests h /\
    dom (urls h') = dom (urls h).
Proof.
  intros (a & r & -> & Hr & [u Hu]). unfold url_of in Hu.
  destruct (http.URL r) as [ua|] eqn:HU; [|discriminate].
  destruct (Shift_spec h a ua r u Hr HU Hu) as (seg & rest & _ & Hrun).
  eexists _, _. split; [exact Hrun|]. cbn [requests urls].
  split; [reflexivity|].
  rewrite dom_insert_L. apply subseteq_union_1_L, singleton_subseteq_l.
  now apply (elem_of_dom_2 (urls h) ua u).
Qed.

Lemma serving_same_objects (h h' : Heap) (req : ptr) :
  requests h' = requests h ->
  dom (urls h') = dom (urls h) ->
  serving h req -> serving h' req.
Proof.
  intros Hreqs Hdom (a & r & -> & Hr & Hu).
  exists a, r. rewrite Hreqs. split; [reflexivity|]. split; [exact Hr|].
  unfold url_of in *. destruct (http.URL r) as [ua|]; [|exact Hu].
  apply elem_of_dom. rewrite Hdom. now apply elem_of_dom.
Qed.

Lemma Shift_seq_serving (reqs : list ptr) (h : Heap) :
  Forall (serving h) reqs ->
  exists (segs : list string) (h' : Heap),
    Shift_seq reqs h = Ok (segs, h') /\
    length segs = length reqs /\
    requests h' = requests h /\
    dom (urls h') = dom (urls h).
Proof.
  revert h. induction reqs as [|req reqs IH]; intros h Hall.
  - exists [], h. repeat split; reflexivity.
  - apply Forall_cons in Hall. destruct Hall as [Hreq Hall].
    destruct (Shift_serving h req Hreq) as (seg & h1 & Hrun & Hreqs & Hdom).
    destruct (IH h1) as (segs & h2 & Hrun2 & Hlen & Hreqs2 & Hdom2).
    { eapply Forall_impl; [exact Hall|]. intros t.
      now apply serving_same_objects. }
    exists (seg :: segs), h2. split.
    + cbn [Shift_seq]. rewrite (bind_ok _ _ _ _ _ Hrun).
      rewrite (bind_ok _ _ _ _ _ Hrun2). reflexivity.
    + cbn [length]. rewrite Hlen, Hreqs2, Hdom2. auto.
Qed.

(** C3: [WithPath] on a request whose context has no path yet gives a
    request on which [Path] is the path the given request had at that call;
    after any run of [Shift] calls on the given and the returned request,
    [Path] on the returned request is still that path, and a further
    [WithPath] does not store another. *)
Theorem Path_is_path_at_first_WithPath (h : Heap) (a : addr)
    (r : http.Request) (u : url.URL) :
  requests h !! a = Some r ->
  url_of h r = Some u ->
  Value (request_ctx r) pathKey = AnyNil ->
  exists (req1 : ptr) (h1 : Heap),
    WithPath (Some a) h = Ok (req1, h1) /\
    Path req1 h1 = Ok (url.Path u, h1) /\
    forall reqs : list ptr,
      Forall (fun req => req = Some a \/ req = req1) reqs ->
      exists (segs : list string) (h2 : Heap),
        Shift_seq reqs h1 = Ok (segs, h2) /\
        length segs = length reqs /\
        Path req1 h2 = Ok (url.Path u, h2) /\
        WithPath req1 h2 = Ok (req1, h2).
Proof.
  intros Hr Hu Hv.
  destruct (WithPath_absent h a r u Hr Hu Hv)
    as (req1 & h1 & Hrun & [Hreqs Hurls] & a1 & r1 & -> & _ & Hr1 & Hc & _ & _ & _ & Hu1).
  pose proof (new_request_Value r r1 _ _ Hc) as Hv1.
  exists (Some a1), h1. split; [exact Hrun|].
  split; [now apply (Path_stored h1 a1 r1)|].
  intros reqs Hall.
  destruct (Shift_seq_serving reqs h1) as (segs & h2 & Hrun2 & Hlen & Hreqs2 & _).
  { eapply Forall_impl; [exact Hall|]. intros t [->| ->].
    - exists a, r. split; [reflexivity|].
      split; [now apply (lookup_weaken (requests h))|].
      exists u. unfold url_of in *. destruct (http.URL r); [|discriminate].
      now apply (lookup_weaken (urls h)).
    - exists a1, r1. rewrite Hu1, Hu. eauto. }
  exists segs, h2. split; [exact Hrun2|]. split; [exact Hlen|].
  rewrite <- Hreqs2 in Hr1. split.
  - now apply (Path_stored h2 a1 r1).
  - apply (WithPath_present h2 a1 r1 Hr1). now rewrite Hv1.
Qed.

Lemma heap_extends_refl (h : Heap) : heap_extends h h.
Proof. split; reflexivity. Qed.

(** C8: [Shift] writes the [Path] field of the URL object of its request
    and nothing else: every request object, with its context, stays as it
    was.  [WithPath] and [WithRequestID] write to no object that was on the
    heap: they return the request they were given, or a new request object
    whose context is a new node around the context of the given one. *)
Theorem mutation_asymmetry (h : Heap) (a : addr) (r : http.Request)
    (u : url.URL) :
  requests h !! a = Some r ->
  url_of h r = Some u ->
  (exists (ua : addr) (seg rest : string),
     http.URL r = Some ua /\
     shift (url.Path u) = Ok (seg, rest) /\
     Shift (Some a) h =
       Ok (seg, {| requests := requests h;
                   urls := <[ua := url.set_Path u rest]> (urls h) |})) /\
  (exists (req1 : ptr) (h1 : Heap),
     WithPath (Some a) h = Ok (req1, h1) /\
     heap_extends h h1 /\
     (Value (request_ctx r) pathKey <> AnyNil -> req1 = Some a /\ h1 = h) /\
     (Value (request_ctx r) pathKey = AnyNil ->
      new_request_with h h1 r req1 pathKey (AnyString (url.Path u)))) /\
  (forall id : string,
   exists (req1 : ptr) (h1 : Heap),
     WithRequestID (Some a) id h = Ok (req1, h1) /\
     heap_extends h h1 /\
     (Value (request_ctx r) requestIDKey <> AnyNil -> req1 = Some a /\ h1 = h) /\
     (Value (request_ctx r) requestIDKey = AnyNil ->
      new_request_with h h1 r req1 requestIDKey (AnyString id))).
Proof.
  intros Hr Hu. split; [|split].
  - pose proof Hu as Hu'. unfold url_of in Hu'.
    destruct (http.URL r) as [ua|] eqn:HU; [|discriminate].
    destruct (Shift_spec h a ua r u Hr HU Hu') as (seg & rest & Hs & Hrun).
    now exists ua, seg, rest.
  - destruct (decide (Value (request_ctx r) pathKey = AnyNil)) as [Hv|Hv].
    + destruct (WithPath_absent h a r u Hr Hu Hv)
        as (req1 & h1 & Hrun & Hext & Hnew).
      exists req1, h1. split; [exact Hrun|]. split; [exact Hext|].
      split; [intros Hv'; contradiction|intros _; exact Hnew].
    + exists (Some a), h. split; [now apply (WithPath_present h a r)|].
      split; [apply heap_extends_refl|]. split; [auto|]. intros Hv'.
      contradiction.
  - intros id.
    destruct (decide (Value (request_ctx r) requestIDKey = AnyNil)) as [Hv|Hv].
    + destruct (WithRequestID_absent h a r u id Hr Hu Hv)
        as (req1 & h1 & Hrun & Hext & Hnew).
      exists req1, h1. split; [exact Hrun|]. split; [exact Hext|].
      split; [intros Hv'; contradiction|intros _; exact Hnew].
    + exists (Some a), h. split; [now apply (WithRequestID_present h a r)|].
      split; [apply heap_extends_refl|]. split; [auto|]. intros Hv'.
      contradiction.
Qed.

(** * Further properties of the package *)

(** ** [shift]: what the segment and the rest look like *)

Lemma length_append (s t : string) :
  String.length (s +:+ t) = (String.length s + String.length t)%nat.
Proof.
  induction s as [|a s IH]; [reflexivity|].
  change (S (String.length (s +:+ t)) = S (String.length s + String.length t)).
  now rewrite IH.
Qed.

(** Cutting a string at the first [c]: no [c] before the cut, [c] right
    after it. *)
Lemma IndexByte_cut (t : string) (c : ascii) :
  GoStr.IndexByte t c <> -1 ->
  GoStr.IndexByte (GoStr.take (Z.to_nat (GoStr.IndexByte t c)) t) c = -1 /\
  exists post, GoStr.drop (Z.to_nat (GoStr.IndexByte t c)) t = String c post.
Proof.
  induction t as [|a t IH]; cbn [GoStr.IndexByte]; [congruence|].
  destruct (Ascii.eqb_spec a c) as [->|Hac].
  - intros _. split; [reflexivity|]. now exists t.
  - pose proof (IndexByte_range t c) as Hr.
    destruct (Z.eqb_spec (GoStr.IndexByte t c) (-1)) as [He|He]; [congruence|].
    intros _. destruct (IH He) as [Htake [post Hdrop]].
    replace (Z.to_nat (GoStr.IndexByte t c + 1))
      with (S (Z.to_nat (GoStr.IndexByte t c))) by lia.
    cbn [GoStr.take GoStr.drop GoStr.IndexByte].
    destruct (Ascii.eqb_spec a c) as [|_]; [contradiction|].
    rewrite Htake. split; [reflexivity|]. now exists post.
Qed.

(** The first [c] of [seg ++ c :: post] is right after [seg] when [seg] has
    none. *)
Lemma IndexByte_append (seg post : string) (c : ascii) :
  GoStr.IndexByte seg c = -1 ->
  GoStr.IndexByte (seg +:+ String c post) c = GoStr.len seg.
Proof.
  induction seg as [|a seg IH]; cbn [GoStr.IndexByte].
  - intros _. change ("" +:+ String c post) with (String c post).
    cbn [GoStr.IndexByte]. now rewrite Ascii.eqb_refl.
  - change (String a seg +:+ String c post)
      with (String a (seg +:+ String c post)).
    cbn [GoStr.IndexByte]. rewrite len_cons.
    destruct (Ascii.eqb a c); [discriminate|].
    destruct (Z.eqb_spec (GoStr.IndexByte seg c) (-1)) as [He|He];
      [|pose proof (IndexByte_range seg c); intros; lia].
    intros _. rewrite (IH He). pose proof (len_nonneg seg).
    destruct (Z.eqb_spec (GoStr.len seg) (-1)); [lia|reflexivity].
Qed.

Lemma take_append (s t : string) :
  GoStr.take (String.length s) (s +:+ t) = s.
Proof.
  induction s as [|a s IH]; [reflexivity|].
  change (String a (GoStr.take (String.length s) (s +:+ t)) = String a s).
  now rewrite IH.
Qed.

Lemma drop_append (s t : string) :
  GoStr.drop (String.length s) (s +:+ t) = t.
Proof. induction s as [|a s IH]; [reflexivity|exact IH]. Qed.

(** X1: The segment [shift] returns has no "/" in it, on every input. *)
Theorem shift_segment_has_no_slash (path : string) :
  exists seg rest : string,
    shift path = Ok (seg, rest) /\
    GoStr.IndexByte seg "/"%char = -1.
Proof.
  destruct path as [|a t]; [now exists "", ""|].
  destruct (string_dec (String a t) "/") as [->|Hne]; [now exists "", "/"|].
  rewrite shift_cons by assumption. cbv zeta.
  destruct (Z.eqb_spec (GoStr.IndexByte t "/"%char) (-1)) as [He|He].
  - now exists t, "".
  - eexists _, _. split; [reflexivity|]. now apply IndexByte_cut.
Qed.

Lemma shift_rest_valid (path seg rest : string) :
  shift path = Ok (seg, rest) -> valid_path rest.
Proof.
  destruct path as [|a t]; [intros [= _ <-]; now left|].
  destruct (string_dec (String a t) "/") as [->|Hne].
  { intros [= _ <-]. right. now exists "". }
  rewrite shift_cons by assumption. cbv zeta.
  destruct (Z.eqb_spec (GoStr.IndexByte t "/"%char) (-1)) as [He|He];
    intros [= _ <-]; [now left|].
  destruct (IndexByte_cut t "/"%char He) as [_ [post ->]].
  right. now exists post.
Qed.

(** X2: The rest [shift] returns is empty or begins with "/", on every input:
    after one call the path meets the precondition of the next, whatever it
    was before. *)
Theorem shift_rest_is_valid_path (path : string) :
  exists seg rest : string,
    shift path = Ok (seg, rest) /\ valid_path rest.
Proof.
  destruct (shift_returns path) as (seg & rest & E).
  exists seg, rest. split; [exact E|]. exact (shift_rest_valid _ _ _ E).
Qed.

Lemma shift_lengths (path seg rest : string) :
  path <> "" -> path <> "/" ->
  shift path = Ok (seg, rest) ->
  GoStr.len seg + GoStr.len rest + 1 = GoStr.len path.
Proof.
  destruct path as [|a t]; [congruence|]. intros _ Hne.
  rewrite shift_cons by assumption. cbv zeta. rewrite len_cons.
  destruct (GoStr.IndexByte t "/"%char =? -1); intros [= <- <-].
  - unfold GoStr.len. cbn [String.length]. lia.
  - pose proof (length_append
                  (GoStr.take (Z.to_nat (GoStr.IndexByte t "/"%char)) t)
                  (GoStr.drop (Z.to_nat (GoStr.IndexByte t "/"%char)) t)) as Hl.
    rewrite take_drop in Hl. unfold GoStr.len. cbn [String.length]. lia.
Qed.

(** X3: Unless the path is "" or "/", [shift] consumes: the segment and the
    rest together are one byte shorter than the path, so the rest is
    shorter than the path. *)
Theorem shift_consumes (path : string) :
  path <> "" -> path <> "/" ->
  exists seg rest : string,
    shift path = Ok (seg, rest) /\
    GoStr.len seg + GoStr.len rest + 1 = GoStr.len path /\
    GoStr.len rest < GoStr.len path.
Proof.
  intros Hne Hne'. destruct (shift_returns path) as (seg & rest & E).
  exists seg, rest. split; [exact E|].
  pose proof (shift_lengths path seg rest Hne Hne' E).
  pose proof (len_nonneg seg). lia.
Qed.

(** X4: [shift] leaves the path as it is exactly on "" and on "/". *)
Theorem shift_noop_iff (path : string) :
  exists seg rest : string,
    shift path = Ok (seg, rest) /\
    (rest = path <-> path = "" \/ path = "/").
Proof.
  destruct (shift_returns path) as (seg & rest & E).
  exists seg, rest. split; [exact E|]. split.
  - intros ->.
    destruct (string_dec path "") as [|Hne]; [now left|].
    destruct (string_dec path "/") as [|Hne']; [now right|].
    pose proof (shift_lengths path seg path Hne Hne' E).
    pose proof (len_nonneg seg). lia.
  - intros [->| ->]; cbn in E; congruence.
Qed.

(** X5: On a valid path the segment is empty exactly when the path is "", is
    "/", or begins with "//". *)
Theorem shift_empty_segment_iff (path : string) :
  valid_path path ->
  exists seg rest : string,
    shift path = Ok (seg, rest) /\
    (seg = "" <->
     path = "" \/ path = "/" \/ exists t, path = "//" +:+ t).
Proof.
  intros [->|[t ->]].
  { exists "", "". split; [reflexivity|]. split; auto. }
  destruct (string_dec (String "/" t) "/") as [E|Hne].
  { rewrite E. exists "", "/". split; [reflexivity|]. split; auto. }
  rewrite shift_cons by assumption. cbv zeta.
  pose proof (IndexByte_range t "/"%char) as Hr.
  destruct (Z.eqb_spec (GoStr.IndexByte t "/"%char) (-1)) as [He|He].
  - exists t, "". split; [reflexivity|]. split.
    + intros ->. now right; left.
    + intros [H|[H|[t' H]]]; [discriminate|congruence|].
      change ("//" +:+ t') with (String "/" (String "/" t')) in H.
      injection H as ->. cbn [GoStr.IndexByte] in He.
      now rewrite Ascii.eqb_refl in He.
  - destruct Hr as [Hr|Hr]; [contradiction|].
    eexists _, _. split; [reflexivity|]. split.
    + intros Hseg. right; right.
      apply take_empty_inv in Hseg; [|unfold GoStr.len in Hr; lia].
      destruct (IndexByte_0_inv t "/"%char) as [t' ->]; [lia|].
      now exists t'.
    + intros [H|[H|[t' H]]]; [discriminate|congruence|].
      change ("//" +:+ t') with (String "/" (String "/" t')) in H.
      injection H as ->. cbn [GoStr.IndexByte].
      now rewrite Ascii.eqb_refl.
Qed.

(** X6: On a path of two bytes or more, [shift] drops the first byte without
    looking at it: a path that does not begin with "/" is cut like the
    path that has "/" in place of its first byte. *)
Theorem shift_ignores_first_byte (a : ascii) (t : string) :
  t <> "" ->
  shift (String a t) = shift (String "/" t).
Proof.
  intros Ht. rewrite !shift_cons; [reflexivity| |]; congruence.
Qed.

(** X7: The other way round: a segment without "/" in front of a valid path,
    behind one "/", is cut back into the two by [shift]; the one exception
    is the empty segment in front of the empty path, which makes "/". *)
Theorem shift_of_joined (seg rest : string) :
  GoStr.IndexByte seg "/"%char = -1 ->
  valid_path rest ->
  seg <> "" \/ rest <> "" ->
  shift ("/" +:+ seg +:+ rest) = Ok (seg, rest).
Proof.
  intros Hseg Hrest Hne.
  change ("/" +:+ seg +:+ rest) with (String "/" (seg +:+ rest)).
  rewrite shift_cons.
  2:{ intros [= E]. apply (f_equal String.length) in E.
      rewrite length_append in E. cbn [String.length] in E.
      destruct seg, rest; cbn [String.length] in E; try lia.
      destruct Hne; congruence. }
  cbv zeta. destruct Hrest as [->|[post ->]].
  - rewrite append_empty_r, Hseg. reflexivity.
  - rewrite IndexByte_append by assumption.
    pose proof (len_nonneg seg).
    destruct (Z.eqb_spec (GoStr.len seg) (-1)); [lia|].
    unfold GoStr.len. rewrite Nat2Z.id, take_append, drop_append.
    reflexivity.
Qed.

(** ** The two keys do not meet *)

Lemma Value_valueCtx_other (c : Context) (k key val : any) :
  k <> key -> Value (valueCtx c k val) key = Value c key.
Proof. intros Hne. cbn. now rewrite decide_False. Qed.

Lemma new_request_other_Value (r r1 : http.Request) (key val k : any) :
  http.ctx r1 = Some (valueCtx (request_ctx r) key val) ->
  k <> key ->
  Value (request_ctx r1) k = Value (request_ctx r) k.
Proof.
  intros Hc Hne. unfold request_ctx at 1. rewrite Hc.
  apply Value_valueCtx_other. congruence.
Qed.

(** X10: The request a "with" operation returns answers every other key as the
    given request does: [WithPath] changes no value but the one of
    [pathKey], [WithRequestID] none but the one of [requestIDKey], whatever
    the keys of other packages are. *)
Theorem with_keeps_other_values (h : Heap) (a : addr) (r : http.Request)
    (u : url.URL) :
  requests h !! a = Some r ->
  url_of h r = Some u ->
  (exists (a1 : addr) (r1 : http.Request) (h1 : Heap),
     WithPath (Some a) h = Ok (Some a1, h1) /\
     requests h1 !! a1 = Some r1 /\
     forall k : any,
       k <> pathKey -> Value (request_ctx r1) k = Value (request_ctx r) k) /\
  (forall id : string,
   exists (a1 : addr) (r1 : http.Request) (h1 : Heap),
     WithRequestID (Some a) id h = Ok (Some a1, h1) /\
     requests h1 !! a1 = Some r1 /\
     forall k : any,
       k <> requestIDKey ->
       Value (request_ctx r1) k = Value (request_ctx r) k).
Proof.
  intros Hr Hu. split.
  - destruct (decide (Value (request_ctx r) pathKey = AnyNil)) as [Hv|Hv].
    + destruct (WithPath_absent h a r u Hr Hu Hv)
        as (req1 & h1 & Hrun & _ & a1 & r1 & -> & _ & Hr1 & Hc & _).
      exists a1, r1, h1. split; [exact Hrun|]. split; [exact Hr1|].
      intros k Hk. now apply (new_request_other_Value r r1 _ _ k Hc).
    + exists a, r, h. split; [now apply (WithPath_present h a r)|]. auto.
  - intros id.
    destruct (decide (Value (request_ctx r) requestIDKey = AnyNil)) as [Hv|Hv].
    + destruct (WithRequestID_absent h a r u id Hr Hu Hv)
        as (req1 & h1 & Hrun & _ & a1 & r1 & -> & _ & Hr1 & Hc & _).
      exists a1, r1, h1. split; [exact Hrun|]. split; [exact Hr1|].
      intros k Hk. now apply (new_request_other_Value r r1 _ _ k Hc).
    + exists a, r, h. split; [now apply (WithRequestID_present h a r)|]. auto.
Qed.

(** X11: [WithPath] and [WithRequestID] in either order: the request at the end
    has the path of the given request as its [Path] and the identifier as
    its [RequestID]. *)
Theorem with_path_and_id_in_either_order (h : Heap) (a : addr)
    (r : http.Request) (u : url.URL) (id : string) :
  requests h !! a = Some r ->
  url_of h r = Some u ->
  Value (request_ctx r) pathKey = AnyNil ->
  Value (request_ctx r) requestIDKey = AnyNil ->
  (exists (req1 req2 : ptr) (h1 h2 : Heap),
     WithPath (Some a) h = Ok (req1, h1) /\
     WithRequestID req1 id h1 = Ok (req2, h2) /\
     Path req2 h2 = Ok (url.Path u, h2) /\
     RequestID req2 h2 = Ok (id, h2)) /\
  (exists (req1 req2 : ptr) (h1 h2 : Heap),
     WithRequestID (Some a) id h = Ok (req1, h1) /\
     WithPath req1 h1 = Ok (req2, h2) /\
     Path req2 h2 = Ok (url.Path u, h2) /\
     RequestID req2 h2 = Ok (id, h2)).
Proof.
  intros Hr Hu Hp Hi. split.
  - destruct (WithPath_absent h a r u Hr Hu Hp)
      as (req1 & h1 & Hrun1 & _ & a1 & r1 & -> & _ & Hr1 & Hc1 & _ & _ & _ & Hu1).
    rewrite Hu in Hu1.
    assert (Hi1 : Value (request_ctx r1) requestIDKey = AnyNil).
    { rewrite (new_request_other_Value r r1 _ _ requestIDKey Hc1); [exact Hi|].
      discriminate. }
    destruct (WithRequestID_absent h1 a1 r1 u id Hr1 Hu1 Hi1)
      as (req2 & h2 & Hrun2 & _ & a2 & r2 & -> & _ & Hr2 & Hc2 & _).
    exists (Some a1), (Some a2), h1, h2.
    split; [exact Hrun1|]. split; [exact Hrun2|]. split.
    + apply (Path_stored h2 a2 r2 _ Hr2).
      rewrite (new_request_other_Value r1 r2 _ _ pathKey Hc2) by discriminate.
      apply (new_request_Value r r1 _ _ Hc1).
    + apply (RequestID_stored h2 a2 r2 _ Hr2).
      apply (new_request_Value r1 r2 _ _ Hc2).
  - destruct (WithRequestID_absent h a r u id Hr Hu Hi)
      as (req1 & h1 & Hrun1 & _ & a1 & r1 & -> & _ & Hr1 & Hc1 & _ & _ & _ & Hu1).
    rewrite Hu in Hu1.
    assert (Hp1 : Value (request_ctx r1) pathKey = AnyNil).
    { rewrite (new_request_other_Value r r1 _ _ pathKey Hc1); [exact Hp|].
      discriminate. }
    destruct (WithPath_absent h1 a1 r1 u Hr1 Hu1 Hp1)
      as (req2 & h2 & Hrun2 & _ & a2 & r2 & -> & _ & Hr2 & Hc2 & _).
    exists (Some a1), (Some a2), h1, h2.
    split; [exact Hrun1|]. split; [exact Hrun2|]. split.
    + apply (Path_stored h2 a2 r2 _ Hr2).
      apply (new_request_Value r1 r2 _ _ Hc2).
    + apply (RequestID_stored h2 a2 r2 _ Hr2).
      rewrite (new_request_other_Value r1 r2 _ _ requestIDKey Hc2)
        by discriminate.
      apply (new_request_Value r r1 _ _ Hc1).
Qed.

(** ** Values of the package's keys are strings *)

Lemma ctx_typed_Value (c : Context) (n : Z) :
  ctx_typed c = true ->
  Value c (AnyKey n) = AnyNil \/ exists s, Value c (AnyKey n) = AnyString s.
Proof.
  induction c as [|parent IH k v|parent IH]; cbn [ctx_typed Value];
    [now left| |exact IH].
  intros [Hkv Hp]%andb_true_iff.
  destruct (decide (k = AnyKey n)) as [->|_]; [|now apply IH].
  destruct v; try discriminate. right. eauto.
Qed.

Lemma Path_typed (h : Heap) (a : addr) (r : http.Request) :
  requests h !! a = Some r ->
  ctx_typed (request_ctx r) = true ->
  exists p, Path (Some a) h = Ok (p, h).
Proof.
  intros Hr Ht. destruct (ctx_typed_Value _ 0 Ht) as [Hv|[p Hv]].
  - exists "". now apply (Path_absent h a r).
  - exists p. now apply (Path_stored h a r).
Qed.

Lemma RequestID_typed (h : Heap) (a : addr) (r : http.Request) :
  requests h !! a = Some r ->
  ctx_typed (request_ctx r) = true ->
  exists id, RequestID (Some a) h = Ok (id, h).
Proof.
  intros Hr Ht. destruct (ctx_typed_Value _ 1 Ht) as [Hv|[id Hv]].
  - exists "". now apply (RequestID_absent h a r).
  - exists id. now apply (RequestID_stored h a r).
Qed.

(** X12: In a heap where the values under the package's keys are strings, the
    type assertions of [Path] and [RequestID] hold: on every request of the
    heap both return a string and leave the heap as it is. *)
Theorem getters_return_on_typed_heap (h : Heap) (a : addr)
    (r : http.Request) :
  heap_typed h ->
  requests h !! a = Some r ->
  exists p id : string,
    Path (Some a) h = Ok (p, h) /\ RequestID (Some a) h = Ok (id, h).
Proof.
  intros Ht Hr. specialize (Ht a r Hr).
  destruct (Path_typed h a r Hr Ht) as [p Hp].
  destruct (RequestID_typed h a r Hr Ht) as [id Hi].
  now exists p, id.
Qed.

Lemma with_context_typed (h h1 : Heap) (a : addr) (r : http.Request)
    (u : url.URL) (key : any) (s : string) (req1 : ptr) :
  heap_typed h ->
  requests h !! a = Some r ->
  url_of h r = Some u ->
  Request_WithContext (Some a) (valueCtx (request_ctx r) key (AnyString s)) h
    = Ok (req1, h1) ->
  heap_typed h1.
Proof.
  intros Ht Hr Hu Hrun.
  destruct (Request_WithContext_spec h a r u
              (valueCtx (request_ctx r) key (AnyString s)) Hr Hu)
    as (a1 & r1 & h1' & Hrun' & _ & Hreqs & _ & Hc & _).
  rewrite Hrun in Hrun'. injection Hrun' as _ <-.
  intros a' r'. rewrite Hreqs.
  intros [[<- <-]|[_ Hr']]%lookup_insert_Some; [|now apply (Ht a')].
  unfold request_ctx at 1. rewrite Hc. cbn [ctx_typed].
  rewrite (Ht a r Hr). now destruct key.
Qed.

Lemma WithPath_absent_run (h : Heap) (a : addr) (r : http.Request)
    (u : url.URL) :
  requests h !! a = Some r ->
  url_of h r = Some u ->
  Value (request_ctx r) pathKey = AnyNil ->
  WithPath (Some a) h =
    Request_WithContext (Some a)
      (valueCtx (request_ctx r) pathKey (AnyString (url.Path u))) h.
Proof.
  intros Hr Hu Hv. unfold WithPath.
  rewrite (bind_ok _ _ _ _ _ (Request_Context_ok _ _ _ Hr)).
  rewrite decide_False by (now rewrite Hv; intros []).
  rewrite (bind_ok _ _ _ _ _ (load_req_ok _ _ _ Hr)).
  rewrite (bind_ok _ _ _ _ _ (load_url_ok _ _ _ Hu)).
  reflexivity.
Qed.

Lemma WithRequestID_absent_run (h : Heap) (a : addr) (r : http.Request)
    (id : string) :
  requests h !! a = Some r ->
  Value (request_ctx r) requestIDKey = AnyNil ->
  WithRequestID (Some a) id h =
    Request_WithContext (Some a)
      (valueCtx (request_ctx r) requestIDKey (AnyString id)) h.
Proof.
  intros Hr Hv. unfold WithRequestID.
  rewrite (bind_ok _ _ _ _ _ (Request_Context_ok _ _ _ Hr)).
  rewrite decide_False by (now rewrite Hv; intros []).
  reflexivity.
Qed.

(** X13: The package keeps that heap invariant: after [WithPath], after
    [WithRequestID] with any identifier, and after [Shift], the values
    under the package's keys are strings on every request of the heap. *)
Theorem operations_keep_heap_typed (h : Heap) (a : addr) (r : http.Request)
    (u : url.URL) :
  heap_typed h ->
  requests h !! a = Some r ->
  url_of h r = Some u ->
  (exists (req1 : ptr) (h1 : Heap),
     WithPath (Some a) h = Ok (req1, h1) /\ heap_typed h1) /\
  (forall id : string,
   exists (req1 : ptr) (h1 : Heap),
     WithRequestID (Some a) id h = Ok (req1, h1) /\ heap_typed h1) /\
  (exists (seg : string) (h1 : Heap),
     Shift (Some a) h = Ok (seg, h1) /\ heap_typed h1).
Proof.
  intros Ht Hr Hu. split; [|split].
  - destruct (decide (Value (request_ctx r) pathKey = AnyNil)) as [Hv|Hv].
    + destruct (WithPath_absent h a r u Hr Hu Hv) as (req1 & h1 & Hrun & _).
      exists req1, h1. split; [exact Hrun|].
      rewrite (WithPath_absent_run h a r u Hr Hu Hv) in Hrun.
      exact (with_context_typed h h1 a r u _ _ req1 Ht Hr Hu Hrun).
    + exists (Some a), h. split; [now apply (WithPath_present h a r)|exact Ht].
  - intros id.
    destruct (decide (Value (request_ctx r) requestIDKey = AnyNil)) as [Hv|Hv].
    + destruct (WithRequestID_absent h a r u id Hr Hu Hv)
        as (req1 & h1 & Hrun & _).
      exists req1, h1. split; [exact Hrun|].
      rewrite (WithRequestID_absent_run h a r id Hr Hv) in Hrun.
      exact (with_context_typed h h1 a r u _ _ req1 Ht Hr Hu Hrun).
    + exists (Some a), h.
      split; [now apply (WithRequestID_present h a r)|exact Ht].
  - destruct (Shift_serving h (Some a)) as (seg & h1 & Hrun & Hreqs & _).
    { exists a, r. rewrite Hu. eauto. }
    exists seg, h1. split; [exact Hrun|].
    intros a' r'. rewrite Hreqs. apply Ht.
Qed.

(** ** Nil pointers *)

(** On the nil request every operation of the package panics with a nil
    dereference: the getters do not fall back to the empty string there. *)
Lemma nil_request_panics (h : Heap) (id : string) :
  Shift None h = Panicked NilDereference /\
  WithPath None h = Panicked NilDereference /\
  Path None h = Panicked NilDereference /\
  WithRequestID None id h = Panicked NilDereference /\
  RequestID None h = Panicked NilDereference.
Proof. repeat split; reflexivity. Qed.

Lemma Request_WithContext_nil_url (h : Heap) (a : addr) (r : http.Request)
    (c : Context) :
  requests h !! a = Some r ->
  http.URL r = None ->
  exists (a1 : addr) (r1 : http.Request) (h1 : Heap),
    Request_WithContext (Some a) c h = Ok (Some a1, h1) /\
    requests h1 !! a1 = Some r1 /\
    http.ctx r1 = Some c /\
    http.URL r1 = None.
Proof.
  intros Hr HU. unfold Request_WithContext.
  rewrite (bind_ok _ _ _ _ _ (load_req_ok _ _ _ Hr)).
  destruct with_context_clones_url.
  - rewrite HU. cbn [cloneURL]. unfold bind, ret, new_req.
    eexists _, _, _. split; [reflexivity|]. cbn [requests].
    split; [apply lookup_insert_eq|]. split; reflexivity.
  - unfold new_req. eexists _, _, _. split; [reflexivity|]. cbn [requests].
    split; [apply lookup_insert_eq|]. split; [reflexivity|exact HU].
Qed.

(** X14: A request whose URL pointer is nil: [Shift] panics, and so does
    [WithPath] when it has a path to store; [WithRequestID] does not read
    the URL and tags the request all the same. *)
Theorem request_without_url (h : Heap) (a : addr) (r : http.Request)
    (id : string) :
  requests h !! a = Some r ->
  http.URL r = None ->
  Shift (Some a) h = Panicked NilDereference /\
  (Value (request_ctx r) pathKey = AnyNil ->
   WithPath (Some a) h = Panicked NilDereference) /\
  (Value (request_ctx r) pathKey <> AnyNil ->
   WithPath (Some a) h = Ok (Some a, h)) /\
  (Value (request_ctx r) requestIDKey = AnyNil ->
   exists (a1 : addr) (r1 : http.Request) (h1 : Heap),
     WithRequestID (Some a) id h = Ok (Some a1, h1) /\
     requests h1 !! a1 = Some r1 /\
     http.URL r1 = None /\
     RequestID (Some a1) h1 = Ok (id, h1)).
Proof.
  intros Hr HU. split; [|split; [|split]].
  - unfold Shift. rewrite (bind_ok _ _ _ _ _ (load_req_ok _ _ _ Hr)).
    rewrite HU. reflexivity.
  - intros Hv. unfold WithPath.
    rewrite (bind_ok _ _ _ _ _ (Request_Context_ok _ _ _ Hr)).
    rewrite decide_False by (now rewrite Hv; intros []).
    rewrite (bind_ok _ _ _ _ _ (load_req_ok _ _ _ Hr)).
    rewrite HU. reflexivity.
  - now apply (WithPath_present h a r).
  - intros Hv. rewrite (WithRequestID_absent_run h a r id Hr Hv).
    destruct (Request_WithContext_nil_url h a r
                (valueCtx (request_ctx r) requestIDKey (AnyString id)) Hr HU)
      as (a1 & r1 & h1 & Hrun & Hr1 & Hc & HU1).
    exists a1, r1, h1. split; [exact Hrun|]. split; [exact Hr1|].
    split; [exact HU1|].
    apply (RequestID_stored h1 a1 r1 id Hr1).
    apply (new_request_Value r r1 _ _ Hc).
Qed.

(** ** Runs of [Shift] come to an end *)

Lemma Shift_noop (h : Heap) (a ua : addr) (r : http.Request) (u : url.URL) :
  requests h !! a = Some r ->
  http.URL r = Some ua ->
  urls h !! ua = Some u ->
  url.Path u = "" \/ url.Path u = "/" ->
  Shift (Some a) h = Ok ("", h).
Proof.
  intros Hr HU Hu Hp.
  destruct (Shift_spec h a ua r u Hr HU Hu) as (seg & rest & Hs & ->).
  assert (seg = "" /\ rest = url.Path u) as [-> ->].
  { destruct Hp as [E|E]; rewrite E in Hs |- *; cbn in Hs;
      injection Hs as <- <-; auto. }
  destruct h as [rs us], u as [sc ho pa ra fr]. cbn in *.
  unfold url.set_Path. cbn. now rewrite insert_id.
Qed.

Lemma Shift_seq_exhausts_aux (a ua : addr) (r : http.Request) (n : nat) :
  forall (h : Heap) (u : url.URL),
    requests h !! a = Some r ->
    http.URL r = Some ua ->
    urls h !! ua = Some u ->
    url.Path u = "" \/ url.Path u = "/" \/
      (String.length (url.Path u) <= n)%nat ->
    exists (segs : list string) (h' : Heap) (u' : url.URL),
      Shift_seq (replicate n (Some a)) h = Ok (segs, h') /\
      requests h' = requests h /\
      urls h' !! ua = Some u' /\
      (url.Path u' = "" \/ url.Path u' = "/").
Proof.
  induction n as [|n IH]; intros h u Hr HU Hu Hp.
  - exists [], h, u. repeat split; try assumption.
    destruct Hp as [E|[E|Hl]]; auto.
    left. destruct (url.Path u); [reflexivity|cbn in Hl; lia].
  - destruct (Shift_spec h a ua r u Hr HU Hu) as (seg & rest & Hs & Hrun).
    set (h1 := {| requests := requests h;
                  urls := <[ua := url.set_Path u rest]> (urls h) |}) in *.
    assert (Hrest : rest = "" \/ rest = "/" \/ (String.length rest <= n)%nat).
    { destruct (string_dec (url.Path u) "") as [E|Hne].
      { rewrite E in Hs. cbn in Hs. injection Hs as _ <-. now left. }
      destruct (string_dec (url.Path u) "/") as [E|Hne'].
      { rewrite E in Hs. cbn in Hs. injection Hs as _ <-. now right; left. }
      right; right.
      pose proof (shift_lengths _ _ _ Hne Hne' Hs) as Hl.
      pose proof (len_nonneg seg).
      destruct Hp as [E|[E|Hn]]; [congruence|congruence|].
      unfold GoStr.len in *. lia. }
    destruct (IH h1 (url.set_Path u rest)) as (segs & h' & u' & Hrun' & Hreqs & Hu' & Hp').
    + exact Hr.
    + exact HU.
    + apply lookup_insert_eq.
    + exact Hrest.
    + exists (seg :: segs), h', u'. split.
      * cbn [replicate Shift_seq]. rewrite (bind_ok _ _ _ _ _ Hrun).
        rewrite (bind_ok _ _ _ _ _ Hrun'). reflexivity.
      * auto.
Qed.

(** X8: As many [Shift] calls on a request as its path has bytes consume the
    path: the live path is then "" or "/", and [Shift] from there on
    returns the empty segment and changes nothing. *)
Theorem Shift_seq_exhausts_path (h : Heap) (a ua : addr) (r : http.Request)
    (u : url.URL) (n : nat) :
  requests h !! a = Some r ->
  http.URL r = Some ua ->
  urls h !! ua = Some u ->
  (String.length (url.Path u) <= n)%nat ->
  exists (segs : list string) (h' : Heap) (u' : url.URL),
    Shift_seq (replicate n (Some a)) h = Ok (segs, h') /\
    urls h' !! ua = Some u' /\
    (url.Path u' = "" \/ url.Path u' = "/") /\
    Shift (Some a) h' = Ok ("", h').
Proof.
  intros Hr HU Hu Hn.
  destruct (Shift_seq_exhausts_aux a ua r n h u Hr HU Hu)
    as (segs & h' & u' & Hrun & Hreqs & Hu' & Hp'); [auto|].
  exists segs, h', u'. split; [exact Hrun|]. split; [exact Hu'|].
  split; [exact Hp'|].
  rewrite <- Hreqs in Hr. now apply (Shift_noop h' a ua r u').
Qed.

(** X9: The segments of a run of [Shift] calls on a request with a valid
    path, when none of them is empty, put back each behind a "/" in front
    of the live path that is left, make the path the run began with. *)
Theorem Shift_seq_reassembles (a ua : addr) (r : http.Request) (n : nat) :
  forall (h : Heap) (u : url.URL),
    requests h !! a = Some r ->
    http.URL r = Some ua ->
    urls h !! ua = Some u ->
    valid_path (url.Path u) ->
    exists (segs : list string) (h' : Heap) (u' : url.URL),
      Shift_seq (replicate n (Some a)) h = Ok (segs, h') /\
      urls h' !! ua = Some u' /\
      (Forall (fun seg => seg <> "") segs ->
       foldr (fun seg acc => "/" +:+ seg +:+ acc) (url.Path u') segs
         = url.Path u).
Proof.
  induction n as [|n IH]; intros h u Hr HU Hu Hv.
  - exists [], h, u. split; [reflexivity|]. split; [exact Hu|reflexivity].
  - destruct (Shift_spec h a ua r u Hr HU Hu) as (seg & rest & Hs & Hrun).
    set (h1 := {| requests := requests h;
                  urls := <[ua := url.set_Path u rest]> (urls h) |}) in *.
    destruct (IH h1 (url.set_Path u rest)) as (segs & h' & u' & Hrun' & Hu' & Hjoin).
    + exact Hr.
    + exact HU.
    + apply lookup_insert_eq.
    + exact (shift_rest_valid _ _ _ Hs).
    + exists (seg :: segs), h', u'. split; [|split; [exact Hu'|]].
      * cbn [replicate Shift_seq]. rewrite (bind_ok _ _ _ _ _ Hrun).
        rewrite (bind_ok _ _ _ _ _ Hrun'). reflexivity.
      * intros Hall. apply Forall_cons in Hall. destruct Hall as [Hseg Hall].
        cbn [foldr]. rewrite (Hjoin Hall). cbn [url.set_Path url.Path].
        apply (shift_reassemble _ _ _ Hv); [| |exact Hs].
        -- intros E. rewrite E in Hs. cbn in Hs. congruence.
        -- intros E. rewrite E in Hs. cbn in Hs. congruence.
Qed.

(** ** [RequestLogger] *)

Lemma RequestLogger_run (base : Logger) (h : Heap) (a : addr)
    (r : http.Request) (p id : string) :
  requests h !! a = Some r ->
  Path (Some a) h = Ok (p, h) ->
  RequestID (Some a) h = Ok (id, h) ->
  exists kv : gmap string any,
    RequestLogger base (Some a) h = Logger_WithKV base kv h /\
    kv !! "method" = Some (AnyString (http.Method r)) /\
    kv !! "path" = Some (AnyString p) /\
    kv !! "remote_addr" = Some (AnyString (http.RemoteAddr r)) /\
    kv !! "user_agent" =
      (if decide (Request_UserAgent r = "") then None
       else Some (AnyString (Request_UserAgent r))) /\
    kv !! "request_id" =
      (if decide (id = "") then None else Some (AnyString id)) /\
    dom kv ⊆ {[ "method"; "path"; "remote_addr"; "user_agent"; "request_id" ]}.
Proof.
  intros Hr Hp Hi. unfold RequestLogger.
  rewrite (bind_ok _ _ _ _ _ (load_req_ok _ _ _ Hr)).
  rewrite (bind_ok _ _ _ _ _ Hp). cbv zeta.
  rewrite (bind_ok _ _ _ _ _ Hi).
  eexists. split; [reflexivity|].
  destruct (decide (Request_UserAgent r = "")) as [Eu|Eu];
    destruct (decide (id = "")) as [Ei|Ei];
    [rewrite !decide_False by (intros H; now apply H)
    |rewrite (decide_False (P := Request_UserAgent r <> ""))
       by (intros H; now apply H);
     rewrite (decide_True (P := id <> "")) by assumption
    |rewrite (decide_True (P := Request_UserAgent r <> "")) by assumption;
     rewrite (decide_False (P := id <> "")) by (intros H; now apply H)
    |rewrite !decide_True by assumption];
    (repeat split;
     [simplify_map_eq; reflexivity ..
     |rewrite ?dom_insert_L, ?dom_empty_L; apply elem_of_subseteq; intros k;
      rewrite ?elem_of_union, ?elem_of_singleton, ?elem_of_empty; tauto]).
Qed.

(** X15: The pairs [RequestLogger] hands to the logger, on a request whose
    context holds strings under the package's keys: "method", "path" and
    "remote_addr" always, with [Path] for the path; "user_agent" only for a
    non-empty user agent; "request_id" only for a non-empty [RequestID];
    and no other key. *)
Theorem RequestLogger_pairs (base : Logger) (h : Heap) (a : addr)
    (r : http.Request) :
  requests h !! a = Some r ->
  ctx_typed (request_ctx r) = true ->
  exists (p id : string) (kv : gmap string any),
    Path (Some a) h = Ok (p, h) /\
    RequestID (Some a) h = Ok (id, h) /\
    RequestLogger base (Some a) h = Logger_WithKV base kv h /\
    kv !! "method" = Some (AnyString (http.Method r)) /\
    kv !! "path" = Some (AnyString p) /\
    kv !! "remote_addr" = Some (AnyString (http.RemoteAddr r)) /\
    kv !! "user_agent" =
      (if decide (Request_UserAgent r = "") then None
       else Some (AnyString (Request_UserAgent r))) /\
    kv !! "request_id" =
      (if decide (id = "") then None else Some (AnyString id)) /\
    dom kv ⊆ {[ "method"; "path"; "remote_addr"; "user_agent"; "request_id" ]}.
Proof.
  intros Hr Ht.
  destruct (Path_typed h a r Hr Ht) as [p Hp].
  destruct (RequestID_typed h a r Hr Ht) as [id Hi].
  destruct (RequestLogger_run base h a r p id Hr Hp Hi) as (kv & Hkv).
  exists p, id, kv. auto.
Qed.

(** X16: The "path" the logger is given is the path stored by [WithPath], not
    the live path: before [WithPath] it is the empty string whatever the
    URL says, and after [WithPath] and any run of [Shift] calls on the
    given and the returned request it is the path at the [WithPath] call. *)
Theorem RequestLogger_path_is_stored_path (base : Logger) (h : Heap)
    (a : addr) (r : http.Request) (u : url.URL) :
  requests h !! a = Some r ->
  url_of h r = Some u ->
  Value (request_ctx r) pathKey = AnyNil ->
  ctx_typed (request_ctx r) = true ->
  (exists kv0 : gmap string any,
     RequestLogger base (Some a) h = Logger_WithKV base kv0 h /\
     kv0 !! "path" = Some (AnyString "")) /\
  exists (req1 : ptr) (h1 : Heap),
    WithPath (Some a) h = Ok (req1, h1) /\
    forall reqs : list ptr,
      Forall (fun req => req = Some a \/ req = req1) reqs ->
      exists (segs : list string) (h2 : Heap) (kv : gmap string any),
        Shift_seq reqs h1 = Ok (segs, h2) /\
        RequestLogger base req1 h2 = Logger_WithKV base kv h2 /\
        kv !! "path" = Some (AnyString (url.Path u)).
Proof.
  intros Hr Hu Hv Ht. split.
  - destruct (RequestID_typed h a r Hr Ht) as [id Hi].
    destruct (RequestLogger_run base h a r "" id Hr
                (Path_absent h a r Hr Hv) Hi) as (kv0 & Hrun & _ & Hp & _).
    now exists kv0.
  - destruct (WithPath_absent h a r u Hr Hu Hv)
      as (req1 & h1 & Hrun & [Hreqs Hurls] & a1 & r1 & -> & _ & Hr1 & Hc
          & _ & _ & _ & Hu1).
    exists (Some a1), h1. split; [exact Hrun|].
    intros reqs Hall.
    destruct (Shift_seq_serving reqs h1) as (segs & h2 & Hrun2 & _ & Hreqs2 & _).
    { eapply Forall_impl; [exact Hall|]. intros t [->| ->].
      - exists a, r. split; [reflexivity|].
        split; [now apply (lookup_weaken (requests h))|].
        exists u. unfold url_of in *. destruct (http.URL r); [|discriminate].
        now apply (lookup_weaken (urls h)).
      - exists a1, r1. rewrite Hu1, Hu. eauto. }
    rewrite <- Hreqs2 in Hr1.
    assert (Hp : Path (Some a1) h2 = Ok (url.Path u, h2)).
    { apply (Path_stored h2 a1 r1 _ Hr1), (new_request_Value r r1 _ _ Hc). }
    assert (Ht1 : ctx_typed (request_ctx r1) = true).
    { unfold request_ctx at 1. rewrite Hc. cbn. exact Ht. }
    destruct (RequestID_typed h2 a1 r1 Hr1 Ht1) as [id Hi].
    destruct (RequestLogger_run base h2 a1 r1 _ id Hr1 Hp Hi)
      as (kv & Hlog & _ & Hpath & _).
    now exists segs, h2, kv.
Qed.

(** X17: The request identifier reaches the logger when it is not empty: after
    [WithRequestID] on a request without an identifier the pairs have
    "request_id" for a non-empty identifier and lack the key for the empty
    one. *)
Theorem RequestLogger_request_id (base : Logger) (h : Heap) (a : addr)
    (r : http.Request) (u : url.URL) (id : string) :
  requests h !! a = Some r ->
  url_of h r = Some u ->
  Value (request_ctx r) requestIDKey = AnyNil ->
  ctx_typed (request_ctx r) = true ->
  exists (req1 : ptr) (h1 : Heap) (kv : gmap string any),
    WithRequestID (Some a) id h = Ok (req1, h1) /\
    RequestLogger base req1 h1 = Logger_WithKV base kv h1 /\
    kv !! "request_id" =
      (if decide (id = "") then None else Some (AnyString id)).
Proof.
  intros Hr Hu Hv Ht.
  destruct (WithRequestID_absent h a r u id Hr Hu Hv)
    as (req1 & h1 & Hrun & _ & a1 & r1 & -> & _ & Hr1 & Hc & _).
  assert (Hi : RequestID (Some a1) h1 = Ok (id, h1)).
  { apply (RequestID_stored h1 a1 r1 _ Hr1), (new_request_Value r r1 _ _ Hc). }
  assert (Ht1 : ctx_typed (request_ctx r1) = true).
  { unfold request_ctx at 1. rewrite Hc. cbn. exact Ht. }
  destruct (Path_typed h1 a1 r1 Hr1 Ht1) as [p Hp].
  destruct (RequestLogger_run base h1 a1 r1 p id Hr1 Hp Hi)
    as (kv & Hlog & _ & _ & _ & _ & Hid & _).
  now exists (Some a1), h1, kv.
Qed.

(** ** [ServeInstrumented] and [Summary.KV] *)

Lemma Summary_KV_lookups (s : Summary) :
  Summary_KV s !! "status" = Some (AnyOther "int" (Status s)) /\
  Summary_KV s !! "duration" = Some (AnyOther "time.Duration" (Duration s)) /\
  Summary_KV s !! "written" = Some (AnyOther "int64" (Written s)).
Proof. unfold Summary_KV. repeat split; simplify_map_eq; reflexivity. Qed.

(** X18: The three pairs of [Summary.KV] are under three keys, none lost to
    another: the summary is read back from them, so two summaries with the
    same pairs are the same summary. *)
Theorem Summary_KV_keeps_every_field (s : Summary) :
  Summary_KV s !! "status" = Some (AnyOther "int" (Status s)) /\
  Summary_KV s !! "duration" = Some (AnyOther "time.Duration" (Duration s)) /\
  Summary_KV s !! "written" = Some (AnyOther "int64" (Written s)) /\
  dom (Summary_KV s) = {[ "status"; "duration"; "written" ]} /\
  forall s' : Summary, Summary_KV s = Summary_KV s' -> s = s'.
Proof.
  destruct (Summary_KV_lookups s) as (Hs & Hd & Hw).
  split; [exact Hs|]. split; [exact Hd|]. split; [exact Hw|]. split.
  - unfold Summary_KV. rewrite !dom_insert_L, dom_empty_L.
    apply set_eq. intros k.
    rewrite ?elem_of_union, ?elem_of_singleton, ?elem_of_empty. tauto.
  - intros s' E. destruct (Summary_KV_lookups s') as (Hs' & Hd' & Hw').
    rewrite <- E in Hs', Hd', Hw'.
    rewrite Hs in Hs'. rewrite Hd in Hd'. rewrite Hw in Hw'.
    destruct s, s'. cbn in *. congruence.
Qed.

(** X19: [ServeInstrumented] adds nothing of its own to what the handler does:
    a panic of the handler is the panic of [ServeInstrumented]; when the
    handler returns, the heap is the one it left, and the pairs of the
    summary are the status code, the duration and the byte count that were
    captured. *)
Theorem ServeInstrumented_reports_metrics (hd : Handler) (w : ResponseWriter)
    (req : ptr) (h : Heap) :
  (forall p : panic,
     CaptureMetrics hd w req h = Panicked p ->
     ServeInstrumented hd w req h = Panicked p) /\
  (forall (m : httpsnoop.Metrics) (h' : Heap),
     CaptureMetrics hd w req h = Ok (m, h') ->
     exists s : Summary,
       ServeInstrumented hd w req h = Ok (s, h') /\
       Summary_KV s !! "status" = Some (AnyOther "int" (httpsnoop.Code m)) /\
       Summary_KV s !! "duration"
         = Some (AnyOther "time.Duration" (httpsnoop.Duration m)) /\
       Summary_KV s !! "written"
         = Some (AnyOther "int64" (httpsnoop.Written m))).
Proof.
  split.
  - intros p Hp. unfold ServeInstrumented, bind. now rewrite Hp.
  - intros m h' Hm. eexists. split.
    + unfold ServeInstrumented. rewrite (bind_ok _ _ _ _ _ Hm). reflexivity.
    + apply Summary_KV_lookups.
Qed.

End Httpx.

(** * Closed instances *)

(** The round-trip property with "an empty segment means the path is
    unchanged" fails at the valid path "//": the segment is empty and the
    rest is "/". *)
Lemma shift_roundtrip_unamended_fails :
  valid_path "//" /\
  shift "//" = Ok ("", "/") /\
  ~ (forall p seg rest : string,
       valid_path p ->
       shift p = Ok (seg, rest) ->
       (seg <> "" -> "/" +:+ seg +:+ rest = p) /\
       (seg = "" -> rest = p)).
Proof.
  assert (Hv : valid_path "//") by (right; now exists "/").
  split; [exact Hv|]. split; [reflexivity|].
  intros H.
  destruct (H "//" "" "/" Hv eq_refl) as [_ Hnoop].
  specialize (Hnoop eq_refl). discriminate Hnoop.
Qed.

Lemma shift_roundtrip_witness :
  valid_path "/abc/xyz" /\
  exists seg rest : string,
    shift "/abc/xyz" = Ok (seg, rest) /\
    (seg <> "" -> "/" +:+ seg +:+ rest = "/abc/xyz") /\
    (seg = "" -> ~ (exists t, "/abc/xyz" = "//" +:+ t) -> rest = "/abc/xyz").
Proof.
  assert (Hv : valid_path "/abc/xyz") by (right; exists "abc/xyz"; reflexivity).
  split; [exact Hv|].
  exact (shift_roundtrip "/abc/xyz" Hv).
Defined.

Lemma test_request_on_heap :
  requests test_heap !! 1%positive = Some test_request /\
  url_of test_heap test_request = Some test_url /\
  Value (request_ctx test_request) pathKey = AnyNil /\
  Value (request_ctx test_request) requestIDKey = AnyNil.
Proof. repeat split; reflexivity. Qed.

(** The test passes with and without the URL clone: the second [WithPath]
    returns the request of the first, the live path is "/xyz" and [Path]
    is "/abc/xyz". *)
Example TestContext_passes (clones : bool) :
  exists h : Heap,
    TestContext clones test_heap
      = Ok ("", "abc", Some 2%positive, Some 2%positive, "/xyz", "/abc/xyz", h).
Proof. destruct clones; eexists; vm_compute; reflexivity. Qed.

Lemma Path_is_path_at_first_WithPath_witness :
  requests test_heap !! 1%positive = Some test_request /\
  url_of test_heap test_request = Some test_url /\
  Value (request_ctx test_request) pathKey = AnyNil /\
  exists (req1 : ptr) (h1 : Heap),
    WithPath false (Some 1%positive) test_heap = Ok (req1, h1) /\
    Path req1 h1 = Ok ("/abc/xyz", h1) /\
    forall reqs : list ptr,
      Forall (fun req => req = Some 1%positive \/ req = req1) reqs ->
      exists (segs : list string) (h2 : Heap),
        Shift_seq reqs h1 = Ok (segs, h2) /\
        length segs = length reqs /\
        Path req1 h2 = Ok ("/abc/xyz", h2) /\
        WithPath false req1 h2 = Ok (req1, h2).
Proof.
  split; [reflexivity|]. split; [reflexivity|]. split; [reflexivity|].
  apply (Path_is_path_at_first_WithPath false test_heap 1%positive
           test_request test_url); reflexivity.
Defined.

Lemma with_twice_same_request_witness :
  requests test_heap !! 1%positive = Some test_request /\
  url_of test_heap test_request = Some test_url /\
  (Value (request_ctx test_request) pathKey <> AnyNil ->
   WithPath true (Some 1%positive) test_heap = Ok (Some 1%positive, test_heap)) /\
  (Value (request_ctx test_request) requestIDKey <> AnyNil ->
   forall id,
     WithRequestID true (Some 1%positive) id test_heap
       = Ok (Some 1%positive, test_heap)) /\
  (exists (req1 : ptr) (h1 : Heap),
     WithPath true (Some 1%positive) test_heap = Ok (req1, h1) /\
     WithPath true req1 h1 = Ok (req1, h1)) /\
  (forall id1 id2 : string,
   exists (req1 : ptr) (h1 : Heap),
     WithRequestID true (Some 1%positive) id1 test_heap = Ok (req1, h1) /\
     WithRequestID true req1 id2 h1 = Ok (req1, h1)).
Proof.
  split; [reflexivity|]. split; [reflexivity|].
  exact (with_twice_same_request true test_heap 1%positive
           test_request test_url eq_refl eq_refl).
Defined.

Lemma request_id_first_write_wins_witness :
  requests test_heap !! 1%positive = Some test_request /\
  url_of test_heap test_request = Some test_url /\
  Value (request_ctx test_request) requestIDKey = AnyNil /\
  exists (req1 req2 : ptr) (h1 h2 : Heap),
    WithRequestID true (Some 1%positive) "r1" test_heap = Ok (req1, h1) /\
    WithRequestID true req1 "r2" h1 = Ok (req2, h2) /\
    RequestID req2 h2 = Ok ("r1", h2).
Proof.
  split; [reflexivity|]. split; [reflexivity|]. split; [reflexivity|].
  apply (request_id_first_write_wins true test_heap 1%positive
           test_request test_url "r1" "r2"); reflexivity.
Defined.

Lemma getters_default_to_empty_witness :
  requests test_heap !! 1%positive = Some test_request /\
  (has_key pathKey (request_ctx test_request) = false ->
   Path (Some 1%positive) test_heap = Ok ("", test_heap)) /\
  (has_key requestIDKey (request_ctx test_request) = false ->
   RequestID (Some 1%positive) test_heap = Ok ("", test_heap)).
Proof.
  split; [reflexivity|].
  apply (getters_default_to_empty test_heap 1%positive test_request).
  reflexivity.
Defined.

Lemma mutation_asymmetry_witness :
  requests test_heap !! 1%positive = Some test_request /\
  url_of test_heap test_request = Some test_url /\
  (exists (ua : addr) (seg rest : string),
     http.URL test_request = Some ua /\
     shift (url.Path test_url) = Ok (seg, rest) /\
     Shift (Some 1%positive) test_heap =
       Ok (seg, {| requests := requests test_heap;
                   urls := <[ua := url.set_Path test_url rest]>
                             (urls test_heap) |})) /\
  (exists (req1 : ptr) (h1 : Heap),
     WithPath false (Some 1%positive) test_heap = Ok (req1, h1) /\
     heap_extends test_heap h1 /\
     (Value (request_ctx test_request) pathKey <> AnyNil ->
      req1 = Some 1%positive /\ h1 = test_heap) /\
     (Value (request_ctx test_request) pathKey = AnyNil ->
      new_request_with test_heap h1 test_request req1 pathKey
        (AnyString (url.Path test_url)))) /\
  (forall id : string,
   exists (req1 : ptr) (h1 : Heap),
     WithRequestID false (Some 1%positive) id test_heap = Ok (req1, h1) /\
     heap_extends test_heap h1 /\
     (Value (request_ctx test_request) requestIDKey <> AnyNil ->
      req1 = Some 1%positive /\ h1 = test_heap) /\
     (Value (request_ctx test_request) requestIDKey = AnyNil ->
      new_request_with test_heap h1 test_request req1 requestIDKey
        (AnyString id))).
Proof.
  split; [reflexivity|]. split; [reflexivity|].
  exact (mutation_asymmetry false test_heap 1%positive test_request
           test_url eq_refl eq_refl).
Defined.

Lemma empty_request_id_is_set_witness :
  requests test_heap !! 1%positive = Some test_request /\
  url_of test_heap test_request = Some test_url /\
  Value (request_ctx test_request) requestIDKey = AnyNil /\
  exists (a1 : addr) (r1 : http.Request) (h1 : Heap),
    WithRequestID false (Some 1%positive) "" test_heap = Ok (Some a1, h1) /\
    requests h1 !! a1 = Some r1 /\
    Value (request_ctx r1) requestIDKey = AnyString "" /\
    Value (request_ctx r1) requestIDKey <> AnyNil /\
    (forall id, WithRequestID false (Some a1) id h1 = Ok (Some a1, h1)) /\
    RequestID (Some a1) h1 = Ok ("", h1) /\
    RequestID (Some 1%positive) test_heap = Ok ("", test_heap).
Proof.
  split; [reflexivity|]. split; [reflexivity|]. split; [reflexivity|].
  apply (empty_request_id_is_set false test_heap 1%positive
           test_request test_url); reflexivity.
Defined.

(** ** Instances of the further properties *)

Lemma shift_consumes_witness :
  "/abc/xyz" <> "" /\ "/abc/xyz" <> "/" /\
  exists seg rest : string,
    shift "/abc/xyz" = Ok (seg, rest) /\
    GoStr.len seg + GoStr.len rest + 1 = GoStr.len "/abc/xyz" /\
    GoStr.len rest < GoStr.len "/abc/xyz".
Proof.
  split; [discriminate|]. split; [discriminate|].
  apply (shift_consumes "/abc/xyz"); discriminate.
Defined.

Lemma shift_empty_segment_iff_witness :
  valid_path "//abc" /\
  exists seg rest : string,
    shift "//abc" = Ok (seg, rest) /\
    (seg = "" <->
     "//abc" = "" \/ "//abc" = "/" \/ exists t, "//abc" = "//" +:+ t).
Proof.
  assert (Hv : valid_path "//abc") by (right; exists "/abc"; reflexivity).
  split; [exact Hv|]. exact (shift_empty_segment_iff "//abc" Hv).
Defined.

Lemma shift_ignores_first_byte_witness :
  "abc/xyz" <> "" /\
  shift (String "x" "abc/xyz") = shift (String "/" "abc/xyz").
Proof.
  split; [discriminate|].
  apply (shift_ignores_first_byte "x" "abc/xyz"). discriminate.
Defined.

Lemma shift_of_joined_witness :
  GoStr.IndexByte "abc" "/"%char = -1 /\
  valid_path "/xyz" /\
  ("abc" <> "" \/ "/xyz" <> "") /\
  shift ("/" +:+ "abc" +:+ "/xyz") = Ok ("abc", "/xyz").
Proof.
  assert (Hv : valid_path "/xyz") by (right; exists "xyz"; reflexivity).
  assert (Hne : "abc" <> "" \/ "/xyz" <> "") by (left; discriminate).
  split; [reflexivity|]. split; [exact Hv|]. split; [exact Hne|].
  exact (shift_of_joined "abc" "/xyz" eq_refl Hv Hne).
Defined.

Lemma test_heap_typed : heap_typed test_heap.
Proof.
  intros a r H. cbn [test_heap requests] in H.
  apply lookup_singleton_Some in H. destruct H as [_ <-]. reflexivity.
Qed.

Lemma with_keeps_other_values_witness :
  requests test_heap !! 1%positive = Some test_request /\
  url_of test_heap test_request = Some test_url /\
  (exists (a1 : addr) (r1 : http.Request) (h1 : Heap),
     WithPath true (Some 1%positive) test_heap = Ok (Some a1, h1) /\
     requests h1 !! a1 = Some r1 /\
     forall k : any,
       k <> pathKey ->
       Value (request_ctx r1) k = Value (request_ctx test_request) k) /\
  (forall id : string,
   exists (a1 : addr) (r1 : http.Request) (h1 : Heap),
     WithRequestID true (Some 1%positive) id test_heap = Ok (Some a1, h1) /\
     requests h1 !! a1 = Some r1 /\
     forall k : any,
       k <> requestIDKey ->
       Value (request_ctx r1) k = Value (request_ctx test_request) k).
Proof.
  split; [reflexivity|]. split; [reflexivity|].
  exact (with_keeps_other_values true test_heap 1%positive test_request
           test_url eq_refl eq_refl).
Defined.

Lemma with_path_and_id_in_either_order_witness :
  requests test_heap !! 1%positive = Some test_request /\
  url_of test_heap test_request = Some test_url /\
  Value (request_ctx test_request) pathKey = AnyNil /\
  Value (request_ctx test_request) requestIDKey = AnyNil /\
  (exists (req1 req2 : ptr) (h1 h2 : Heap),
     WithPath false (Some 1%positive) test_heap = Ok (req1, h1) /\
     WithRequestID false req1 "r1" h1 = Ok (req2, h2) /\
     Path req2 h2 = Ok ("/abc/xyz", h2) /\
     RequestID req2 h2 = Ok ("r1", h2)) /\
  (exists (req1 req2 : ptr) (h1 h2 : Heap),
     WithRequestID false (Some 1%positive) "r1" test_heap = Ok (req1, h1) /\
     WithPath false req1 h1 = Ok (req2, h2) /\
     Path req2 h2 = Ok ("/abc/xyz", h2) /\
     RequestID req2 h2 = Ok ("r1", h2)).
Proof.
  split; [reflexivity|]. split; [reflexivity|].
  split; [reflexivity|]. split; [reflexivity|].
  exact (with_path_and_id_in_either_order false test_heap 1%positive
           test_request test_url "r1" eq_refl eq_refl eq_refl eq_refl).
Defined.

Lemma getters_return_on_typed_heap_witness :
  heap_typed test_heap /\
  requests test_heap !! 1%positive = Some test_request /\
  exists p id : string,
    Path (Some 1%positive) test_heap = Ok (p, test_heap) /\
    RequestID (Some 1%positive) test_heap = Ok (id, test_heap).
Proof.
  split; [exact test_heap_typed|]. split; [reflexivity|].
  exact (getters_return_on_typed_heap test_heap 1%positive test_request
           test_heap_typed eq_refl).
Defined.

Lemma operations_keep_heap_typed_witness :
  heap_typed test_heap /\
  requests test_heap !! 1%positive = Some test_request /\
  url_of test_heap test_request = Some test_url /\
  (exists (req1 : ptr) (h1 : Heap),
     WithPath true (Some 1%positive) test_heap = Ok (req1, h1) /\
     heap_typed h1) /\
  (forall id : string,
   exists (req1 : ptr) (h1 : Heap),
     WithRequestID true (Some 1%positive) id test_heap = Ok (req1, h1) /\
     heap_typed h1) /\
  (exists (seg : string) (h1 : Heap),
     Shift (Some 1%positive) test_heap = Ok (seg, h1) /\ heap_typed h1).
Proof.
  split; [exact test_heap_typed|]. split; [reflexivity|].
  split; [reflexivity|].
  exact (operations_keep_heap_typed true test_heap 1%positive test_request
           test_url test_heap_typed eq_refl eq_refl).
Defined.

Lemma request_without_url_witness :
  requests bare_heap !! 1%positive = Some bare_request /\
  http.URL bare_request = None /\
  Shift (Some 1%positive) bare_heap = Panicked NilDereference /\
  (Value (request_ctx bare_request) pathKey = AnyNil ->
   WithPath true (Some 1%positive) bare_heap = Panicked NilDereference) /\
  (Value (request_ctx bare_request) pathKey <> AnyNil ->
   WithPath true (Some 1%positive) bare_heap
     = Ok (Some 1%positive, bare_heap)) /\
  (Value (request_ctx bare_request) requestIDKey = AnyNil ->
   exists (a1 : addr) (r1 : http.Request) (h1 : Heap),
     WithRequestID true (Some 1%positive) "r1" bare_heap = Ok (Some a1, h1) /\
     requests h1 !! a1 = Some r1 /\
     http.URL r1 = None /\
     RequestID (Some a1) h1 = Ok ("r1", h1)).
Proof.
  split; [reflexivity|]. split; [reflexivity|].
  exact (request_without_url true bare_heap 1%positive bare_request "r1"
           eq_refl eq_refl).
Defined.

Lemma Shift_seq_exhausts_path_witness :
  requests test_heap !! 1%positive = Some test_request /\
  http.URL test_request = Some 1%positive /\
  urls test_heap !! 1%positive = Some test_url /\
  (String.length (url.Path test_url) <= 8)%nat /\
  exists (segs : list string) (h' : Heap) (u' : url.URL),
    Shift_seq (replicate 8 (Some 1%positive)) test_heap = Ok (segs, h') /\
    urls h' !! 1%positive = Some u' /\
    (url.Path u' = "" \/ url.Path u' = "/") /\
    Shift (Some 1%positive) h' = Ok ("", h').
Proof.
  assert (Hl : (String.length (url.Path test_url) <= 8)%nat) by (cbn; lia).
  split; [reflexivity|]. split; [reflexivity|]. split; [reflexivity|].
  split; [exact Hl|].
  exact (Shift_seq_exhausts_path test_heap 1%positive 1%positive test_request
           test_url 8 eq_refl eq_refl eq_refl Hl).
Defined.

Lemma RequestLogger_pairs_witness :
  requests test_heap !! 1%positive = Some test_request /\
  ctx_typed (request_ctx test_request) = true /\
  exists (p id : string) (kv : gmap string any),
    Path (Some 1%positive) test_heap = Ok (p, test_heap) /\
    RequestID (Some 1%positive) test_heap = Ok (id, test_heap) /\
    RequestLogger (gmap string any) pairs_WithKV test_UserAgent ∅
      (Some 1%positive) test_heap = pairs_WithKV ∅ kv test_heap /\
    kv !! "method" = Some (AnyString (http.Method test_request)) /\
    kv !! "path" = Some (AnyString p) /\
    kv !! "remote_addr" = Some (AnyString (http.RemoteAddr test_request)) /\
    kv !! "user_agent" =
      (if decide (test_UserAgent test_request = "") then None
       else Some (AnyString (test_UserAgent test_request))) /\
    kv !! "request_id" =
      (if decide (id = "") then None else Some (AnyString id)) /\
    dom kv ⊆ {[ "method"; "path"; "remote_addr"; "user_agent"; "request_id" ]}.
Proof.
  split; [reflexivity|]. split; [reflexivity|].
  exact (RequestLogger_pairs (gmap string any) pairs_WithKV test_UserAgent ∅
           test_heap 1%positive test_request eq_refl eq_refl).
Defined.

Lemma RequestLogger_path_is_stored_path_witness :
  requests test_heap !! 1%positive = Some test_request /\
  url_of test_heap test_request = Some test_url /\
  Value (request_ctx test_request) pathKey = AnyNil /\
  ctx_typed (request_ctx test_request) = true /\
  (exists kv0 : gmap string any,
     RequestLogger (gmap string any) pairs_WithKV test_UserAgent ∅
       (Some 1%positive) test_heap = pairs_WithKV ∅ kv0 test_heap /\
     kv0 !! "path" = Some (AnyString "")) /\
  exists (req1 : ptr) (h1 : Heap),
    WithPath false (Some 1%positive) test_heap = Ok (req1, h1) /\
    forall reqs : list ptr,
      Forall (fun req => req = Some 1%positive \/ req = req1) reqs ->
      exists (segs : list string) (h2 : Heap) (kv : gmap string any),
        Shift_seq reqs h1 = Ok (segs, h2) /\
        RequestLogger (gmap string any) pairs_WithKV test_UserAgent ∅
          req1 h2 = pairs_WithKV ∅ kv h2 /\
        kv !! "path" = Some (AnyString (url.Path test_url)).
Proof.
  split; [reflexivity|]. split; [reflexivity|].
  split; [reflexivity|]. split; [reflexivity|].
  exact (RequestLogger_path_is_stored_path false (gmap string any)
           pairs_WithKV test_UserAgent ∅ test_heap 1%positive test_request
           test_url eq_refl eq_refl eq_refl eq_refl).
Defined.

Lemma RequestLogger_request_id_witness :
  requests test_heap !! 1%positive = Some test_request /\
  url_of test_heap test_request = Some test_url /\
  Value (request_ctx test_request) requestIDKey = AnyNil /\
  ctx_typed (request_ctx test_request) = true /\
  exists (req1 : ptr) (h1 : Heap) (kv : gmap string any),
    WithRequestID false (Some 1%positive) "r1" test_heap = Ok (req1, h1) /\
    RequestLogger (gmap string any) pairs_WithKV test_UserAgent ∅ req1 h1
      = pairs_WithKV ∅ kv h1 /\
    kv !! "request_id" =
      (if decide ("r1" = "") then None else Some (AnyString "r1")).
Proof.
  split; [reflexivity|]. split; [reflexivity|].
  split; [reflexivity|]. split; [reflexivity|].
  exact (RequestLogger_request_id false (gmap string any) pairs_WithKV
           test_UserAgent ∅ test_heap 1%positive test_request test_url "r1"
           eq_refl eq_refl eq_refl eq_refl).
Defined.

(** [RequestLogger] run on the test request after [WithPath], [WithRequestID]
    and one [Shift]: five pairs, the path the one before the [Shift]. *)
Example RequestLogger_on_test_request (clones : bool) :
  exists h : Heap,
    (let* req := WithPath clones (Some 1%positive) in
     let* req := WithRequestID clones req "r1" in
     let* _ := Shift req in
     RequestLogger (gmap string any) pairs_WithKV test_UserAgent ∅ req)
      test_heap
    = Ok (<["method" := AnyString "GET"]>
            (<["path" := AnyString "/abc/xyz"]>
               (<["remote_addr" := AnyString "192.0.2.1:4711"]>
                  (<["user_agent" := AnyString "Go-http-client/1.1"]>
                     (<["request_id" := AnyString "r1"]> ∅)))), h).
Proof. destruct clones; eexists; vm_compute; reflexivity. Qed.

Lemma Shift_seq_reassembles_witness :
  requests test_heap !! 1%positive = Some test_request /\
  http.URL test_request = Some 1%positive /\
  urls test_heap !! 1%positive = Some test_url /\
  valid_path (url.Path test_url) /\
  exists (segs : list string) (h' : Heap) (u' : url.URL),
    Shift_seq (replicate 2 (Some 1%positive)) test_heap = Ok (segs, h') /\
    urls h' !! 1%positive = Some u' /\
    (Forall (fun seg => seg <> "") segs ->
     foldr (fun seg acc => "/" +:+ seg +:+ acc) (url.Path u') segs
       = url.Path test_url).
Proof.
  assert (Hv : valid_path (url.Path test_url))
    by (right; exists "abc/xyz"; reflexivity).
  split; [reflexivity|]. split; [reflexivity|]. split; [reflexivity|].
  split; [exact Hv|].
  exact (Shift_seq_reassembles 1%positive 1%positive test_request 2 test_heap
           test_url eq_refl eq_refl eq_refl Hv).
Defined.
